(** * update_riot_itemset_ids: a shallow embedding of the scan / transform /
    report engine and the properties it satisfies.

    The development follows [src/update_riot_itemset_ids.py]:
    - parsed JSON documents and Python dictionaries (insertion ordered);
    - [EMBEDDED_ITEM_MAP] and [build_maps];
    - [replace_ids_in_itemset], the walk over blocks / items / ids;
    - the file store, with reads and writes that may raise [OSError], and
      [json.load], which may raise [JSONDecodeError] and exceptions that
      [process_file] does not handle;
    - [process_file] and the loop of [run_fix];
    - [flatten_changes] and [print_cli_report]. *)

From Stdlib Require Import ZArith String Ascii List Bool Lia Sorted Permutation.
From stdpp Require Import base gmap strings list sorting pretty.

Set Warnings "-register-all".
Open Scope Z_scope.

(* ===================================================================== *)
(** * Python values *)
(* ===================================================================== *)

(** What [json.load] returns: [None], [bool], [int], [float], [str], [list]
    and [dict].  Python integers are unbounded, hence [Z].  A float is
    identified with the text that [str] gives for it ([1.5], [1e+22],
    [nan]); the program never computes with one.  A [dict] keeps its keys in
    insertion order, which is the order [json.dump] writes them in. *)
Inductive json : Type :=
| JNull
| JBool (b : bool)
| JInt (n : Z)
| JFloat (text : string)
| JStr (s : string)
| JArr (xs : list json)
| JObj (kvs : list (string * json)).

(** ** Dictionaries with string keys, in insertion order *)

Section Dict.
Context {V : Type}.

(** [d.get(k)], as an option. *)
Fixpoint dict_get (k : string) (d : list (string * V)) : option V :=
  match d with
  | [] => None
  | (k', v) :: d' => if String.eqb k k' then Some v else dict_get k d'
  end.

(** [d[k] = v]: an existing key keeps its position, a new key goes last. *)
Fixpoint dict_set (k : string) (v : V) (d : list (string * V)) : list (string * V) :=
  match d with
  | [] => [(k, v)]
  | (k', v') :: d' =>
      if String.eqb k k' then (k, v) :: d' else (k', v') :: dict_set k v d'
  end.

(** [d.keys()]. *)
Definition dict_keys (d : list (string * V)) : list string := map fst d.

(** A Python dict never holds a key twice. *)
Definition dict_wf (d : list (string * V)) : Prop := NoDup (dict_keys d).
End Dict.

(** [d.get(k)] on a parsed object: [None] (JSON null) when the key is absent. *)
Definition get (d : list (string * json)) (k : string) : json :=
  match dict_get k d with Some v => v | None => JNull end.

(* ===================================================================== *)
(** * The Python runtime the program calls into *)
(* ===================================================================== *)

(** The exceptions a call can meet, each with the text [str(e)] gives.
    [process_file] handles the first two.  The other three are what
    [json.load] raises besides: [UnicodeDecodeError] when the bytes of the
    file are not UTF-8, [RecursionError] when the nesting is too deep,
    [ValueError] for an integer literal with too many digits.  Neither is a
    [JSONDecodeError] or an [OSError]. *)
Inductive exn : Type :=
| JSONDecodeError (detail : string)
| OSError (detail : string)
| UnicodeDecodeError (detail : string)
| RecursionError (detail : string)
| ValueError (detail : string).

(** Outcome of [json.load] on the content of a file: a value, or an
    exception. *)
Inductive load_result : Type :=
| Loaded (v : json)
| Raised (e : exn).

(** [json.load] raises [json.JSONDecodeError] with this message. *)
Abbreviation Malformed detail := (Raised (JSONDecodeError detail)).

(** A path is the list of its parts; the last one is the file name. *)
Abbreviation path := (list string).

(** Library functions whose code is not part of the program.  Every theorem
    below holds whatever they compute. *)
Record runtime : Type := {
  (** [str(x)] for [x] a list or a dict *)
  repr_container : json -> string;
  (** [str.casefold] *)
  casefold : string -> string;
  (** [repr(s)] for [s] a [str] *)
  repr_str : string -> string;
  (** [json.load] on the content of a file *)
  json_loads : string -> load_result;
  (** [json.dump(obj, f, ensure_ascii=False, separators=(",", ":"))] *)
  json_dumps : json -> string;
  (** [str(path)] *)
  path_str : path -> string
}.

(** [str(x)].  On a [str] it is the identity, on an [int] the decimal
    numeral, on a [bool] [True] or [False], on [None] the text [None]. *)
Definition py_str (py : runtime) (x : json) : string :=
  match x with
  | JNull => "None"
  | JBool true => "True"
  | JBool false => "False"
  | JInt n => pretty n
  | JFloat text => text
  | JStr s => s
  | JArr _ | JObj _ => repr_container py x
  end.

(* ===================================================================== *)
(** * The identifier map *)
(* ===================================================================== *)

Module ItemInfo.
Record t : Type := Make {
  old_id : string;
  new_id : string;
  name_es : string;
  name_en : string
}.
End ItemInfo.
Abbreviation ItemInfo := ItemInfo.Make.

(** The dict literal, entry by entry. *)
Definition EMBEDDED_ITEM_MAP : list (string * ItemInfo.t) := [
  ("2065", ItemInfo "2065" "322065" "Canción de batalla de Shurelya" "Shurelya's Battlesong");
  ("3002", ItemInfo "3002" "323002" "Marcasendas" "Trailblazer");
  ("3003", ItemInfo "3003" "323003" "Bastón del arcángel" "Archangel's Staff");
  ("3004", ItemInfo "3004" "323004" "Manamune" "Manamune");
  ("3050", ItemInfo "3050" "323050" "Convergencia de Zeke" "Zeke's Convergence");
  ("3075", ItemInfo "3075" "323075" "Malla de espinas" "Thornmail");
  ("3107", ItemInfo "3107" "323107" "Redención" "Redemption");
  ("3109", ItemInfo "3109" "323109" "Promesa de caballero" "Knight's Vow");
  ("3110", ItemInfo "3110" "323110" "Corazón de hielo" "Frozen Heart");
  ("3119", ItemInfo "3119" "323119" "Llegada del invierno" "Winter's Approach");
  ("3190", ItemInfo "3190" "323190" "Medallón de los Solari de Hierro" "Locket of the Iron Solari");
  ("3222", ItemInfo "3222" "323222" "Bendición de Mikael" "Mikael's Blessing");
  ("3504", ItemInfo "3504" "323504" "Incensario ardiente" "Ardent Censer");
  ("4005", ItemInfo "4005" "324005" "Mandato imperial" "Imperial Mandate");
  ("6616", ItemInfo "6616" "326616" "Bastón de aguas fluidas" "Staff of Flowing Water");
  ("6617", ItemInfo "6617" "326617" "Renovación de piedra lunar" "Moonstone Renewer");
  ("6620", ItemInfo "6620" "326620" "Ecos de Helia" "Echoes of Helia");
  ("6621", ItemInfo "6621" "326621" "Núcleo albar" "Dawncore");
  ("6657", ItemInfo "6657" "326657" "Vara de las edades" "Rod of Ages");
  ("8020", ItemInfo "8020" "328020" "Máscara abisal" "Abyssal Mask")
].

(** [build_maps]: (old_id -> new_id, old_id -> ItemInfo).  Both are only
    ever read with [.get], so their order plays no role. *)
Definition build_maps : gmap string string * gmap string ItemInfo.t :=
  let id_map : gmap string string :=
    list_to_map (map (fun '(old_id, info) => (old_id, ItemInfo.new_id info)) EMBEDDED_ITEM_MAP) in
  let info_map : gmap string ItemInfo.t := list_to_map EMBEDDED_ITEM_MAP in
  (id_map, info_map).

(* ===================================================================== *)
(** * replace_ids_in_itemset *)
(* ===================================================================== *)

(** The change ledger: champion -> old_id -> count. *)
Abbreviation ledger := (list (string * list (string * Z))).

(** [champ_items = changes.setdefault(champion, {})]
    [champ_items[item_id] = champ_items.get(item_id, 0) + 1] *)
Definition record_change (changes : ledger) (champion item_id : string) : ledger :=
  let champ_items := default [] (dict_get champion changes) in
  dict_set champion
    (dict_set item_id (default 0 (dict_get item_id champ_items) + 1) champ_items)
    changes.

(** State of the walk: the running counter and the ledger it mutates. *)
Abbreviation walk_state := (Z * ledger)%type.

(** Body of [for item in items].  The item is mutated in place; the model
    returns the item as it is afterwards. *)
Definition for_item (py : runtime) (id_map : gmap string string) (champion : string)
    (item : json) (st : walk_state) : json * walk_state :=
  let '(replacements, changes) := st in
  match item with
  | JObj d =>
      let raw_id := get d "id" in
      match raw_id with
      | JNull => (item, st)
      | _ =>
          let item_id := py_str py raw_id in
          match id_map !! item_id with
          | Some new_id =>
              if negb (String.eqb new_id "") && negb (String.eqb new_id item_id)
              then (JObj (dict_set "id" (JStr new_id) d),
                    (replacements + 1, record_change changes champion item_id))
              else (item, st)
          | None => (item, st)
          end
      end
  | _ => (item, st)
  end.

(** A [for] loop over a list whose elements are mutated in place. *)
Fixpoint for_each (body : json -> walk_state -> json * walk_state)
    (xs : list json) (st : walk_state) : list json * walk_state :=
  match xs with
  | [] => ([], st)
  | x :: rest =>
      let '(x', st') := body x st in
      let '(rest', st'') := for_each body rest st' in
      (x' :: rest', st'')
  end.

(** Body of [for block in blocks]. *)
Definition for_block (py : runtime) (id_map : gmap string string) (champion : string)
    (block : json) (st : walk_state) : json * walk_state :=
  match block with
  | JObj d =>
      match get d "items" with
      | JArr items =>
          let '(items', st') := for_each (for_item py id_map champion) items st in
          (JObj (dict_set "items" (JArr items') d), st')
      | _ => (block, st)
      end
  | _ => (block, st)
  end.

(** Returns (possibly modified obj, replacements_count) and the ledger as
    the call leaves it. *)
Definition replace_ids_in_itemset (py : runtime) (obj : json)
    (id_map : gmap string string) (changes : ledger) (champion : string)
    : json * Z * ledger :=
  match obj with
  | JObj d =>
      match get d "blocks" with
      | JArr blocks =>
          let '(blocks', (replacements, changes')) :=
            for_each (for_block py id_map champion) blocks (0, changes) in
          (JObj (dict_set "blocks" (JArr blocks') d), replacements, changes')
      | _ => (obj, 0, changes)
      end
  | _ => (obj, 0, changes)
  end.

(** ** The walk, described item by item *)

(** The items the walk visits, in the order it visits them: the elements of
    the [items] list of every element of [blocks] that is an object. *)
Definition items_of_block (block : json) : list json :=
  match block with
  | JObj d => match get d "items" with JArr items => items | _ => [] end
  | _ => []
  end.

Definition walked_items (obj : json) : list json :=
  match obj with
  | JObj d => match get d "blocks" with JArr blocks => flat_map items_of_block blocks | _ => [] end
  | _ => []
  end.

(** [is_hit py id_map item old new]: the item is an object whose [id] is
    present and not null, [old] is the text of that id, [old] is a key of
    the map, and the value [new] under it is not empty and is not [old]. *)
Definition is_hit (py : runtime) (id_map : gmap string string) (item : json)
    (old new : string) : Prop :=
  exists d raw,
    item = JObj d /\ dict_get "id" d = Some raw /\ raw <> JNull /\
    old = py_str py raw /\ id_map !! old = Some new /\ new <> "" /\ new <> old.

(** The same, computed: [Some (old, new)] for a hit. *)
Definition hit_of (py : runtime) (id_map : gmap string string) (item : json)
    : option (string * string) :=
  match item with
  | JObj d =>
      match dict_get "id" d with
      | Some JNull | None => None
      | Some raw =>
          match id_map !! py_str py raw with
          | Some new =>
              if decide (new <> "" /\ new <> py_str py raw) then Some (py_str py raw, new)
              else None
          | None => None
          end
      end
  | _ => None
  end.

(** A hit has its [id] overwritten by the new identifier, a [str]; any
    other item stays as it is. *)
Definition rewrite_item (py : runtime) (id_map : gmap string string) (item : json) : json :=
  match item, hit_of py id_map item with
  | JObj d, Some (_, new) => JObj (dict_set "id" (JStr new) d)
  | _, _ => item
  end.

Definition rewrite_block (py : runtime) (id_map : gmap string string) (block : json) : json :=
  match block with
  | JObj d =>
      match get d "items" with
      | JArr items => JObj (dict_set "items" (JArr (map (rewrite_item py id_map) items)) d)
      | _ => block
      end
  | _ => block
  end.

Definition rewrite_doc (py : runtime) (id_map : gmap string string) (obj : json) : json :=
  match obj with
  | JObj d =>
      match get d "blocks" with
      | JArr blocks => JObj (dict_set "blocks" (JArr (map (rewrite_block py id_map) blocks)) d)
      | _ => obj
      end
  | _ => obj
  end.

(** The hits of a document, in walk order, as (old, new) pairs. *)
Definition hits (py : runtime) (id_map : gmap string string) (obj : json)
    : list (string * string) :=
  omap (hit_of py id_map) (walked_items obj).

(** The ledger once the hits [hs] of a file of [champion] are recorded. *)
Definition record_hits (champion : string) (changes : ledger) (hs : list (string * string))
    : ledger :=
  foldl (fun c h => record_change c champion h.1) changes hs.

(** [changes.get(champion, {}).get(old_id, 0)]. *)
Definition ledger_count (changes : ledger) (champion old_id : string) : Z :=
  default 0 (dict_get old_id (default [] (dict_get champion changes))).

(** How often [old_id] occurs among the old identifiers of a list of hits. *)
Definition occurrences (old_id : string) (hs : list (string * string)) : Z :=
  Z.of_nat (length (filter (fun h => h.1 = old_id) hs)).

(* ===================================================================== *)
(** * Paths *)
(* ===================================================================== *)

(** [p.parent] and [p.name]. *)
Definition parent (p : path) : path := List.removelast p.
Definition name (p : path) : string := List.last p "".

(** [json_path.relative_to(root)]: [None] stands for the [ValueError] raised
    when [root] is not a prefix. *)
Fixpoint relative_to (root p : path) : option path :=
  match root, p with
  | [], _ => Some p
  | r :: root', x :: p' => if String.eqb r x then relative_to root' p' else None
  | _ :: _, [] => None
  end.

Definition _champion_name_from_path (root json_path : path) : string :=
  match relative_to root json_path with
  | Some rel =>
      match rel with
      | part0 :: _ => part0
      | [] => name (parent (parent json_path))
      end
  | None => name (parent (parent json_path))
  end.

(** [path.with_suffix(path.suffix + ".bak")].  [with_suffix] swaps the old
    suffix of the name for the new one; the new one starts with the old one,
    so the name only gains [.bak] at its end. *)
Definition backup_path_of (p : path) : path := parent p ++ [name p +:+ ".bak"].

(** What [root.glob("*/Recommended/*.json")] can yield. *)
Definition ends_with_json (s : string) : bool :=
  match List.rev (list_ascii_of_string s) with
  | "n" :: "o" :: "s" :: "j" :: "." :: _ => true
  | _ => false
  end%char.

Definition is_itemset_path (root p : path) : Prop :=
  exists champion file,
    p = root ++ [champion; "Recommended"; file] /\ ends_with_json file = true.

(* ===================================================================== *)
(** * The file store and the effects of a run *)
(* ===================================================================== *)

(** File operations that completed, in the order they happened. *)
Inductive event : Type :=
| EvRead (p : path)
| EvCopy (src dst : path)
| EvWrite (p : path).

(** The store: the content of every file, and for the paths that cannot be
    opened for reading (resp. created or opened for writing) the message of
    the [OSError] the attempt raises. *)
Record fs : Type := {
  files : gmap path string;
  read_err : gmap path string;
  write_err : gmap path string
}.

(** Everything a call can mutate: the store, the dict [changes] that
    [run_fix] shares with every [process_file], and the trace of completed
    file operations. *)
Record world : Type := {
  disk : fs;
  changes : ledger;
  trace : list event
}.

Definition set_files (f : gmap path string) (w : world) : world :=
  {| disk := {| files := f; read_err := read_err (disk w); write_err := write_err (disk w) |};
     changes := changes w; trace := trace w |}.
Definition set_changes (c : ledger) (w : world) : world :=
  {| disk := disk w; changes := c; trace := trace w |}.
Definition emit (e : event) (w : world) : world :=
  {| disk := disk w; changes := changes w; trace := trace w ++ [e] |}.

(** A computation returns or raises, and leaves a world behind either way:
    what was mutated before an exception stays mutated. *)
Definition M (A : Type) : Type := world -> (A + exn) * world.

#[global] Instance M_ret : MRet M := fun A a w => (inl a, w).
#[global] Instance M_bind : MBind M := fun A B f m w =>
  match m w with
  | (inl a, w') => f a w'
  | (inr e, w') => (inr e, w')
  end.

Definition raise {A : Type} (e : exn) : M A := fun w => (inr e, w).

(** [try: body except exn as e: handler e]. *)
Definition try_except {A : Type} (body : M A) (handler : exn -> M A) : M A := fun w =>
  match body w with
  | (inl a, w') => (inl a, w')
  | (inr e, w') => handler e w'
  end.

(** A call that receives the shared dict [changes] and mutates it. *)
Definition on_changes {A : Type} (f : ledger -> A * ledger) : M A := fun w =>
  let '(a, c) := f (changes w) in (inl a, set_changes c w).

(** [str(e)] for the [FileNotFoundError] that opening a missing file raises:
    errno, message and the [repr] of the file name. *)
Definition no_such_file (py : runtime) (p : path) : string :=
  "[Errno 2] No such file or directory: " +:+ repr_str py (path_str py p).

(** [path.open("r")] followed by reading the content. *)
Definition read_text (py : runtime) (p : path) : M string := fun w =>
  match read_err (disk w) !! p with
  | Some msg => (inr (OSError msg), w)
  | None =>
      match files (disk w) !! p with
      | Some text => (inl text, emit (EvRead p) w)
      | None => (inr (OSError (no_such_file py p)), w)
      end
  end.

(** [path.open("w")] followed by writing [text]. *)
Definition write_text (p : path) (text : string) : M unit := fun w =>
  match write_err (disk w) !! p with
  | Some msg => (inr (OSError msg), w)
  | None => (inl tt, emit (EvWrite p) (set_files (<[p := text]> (files (disk w))) w))
  end.

(** [backup_path.exists()]. *)
Definition path_exists (p : path) : M bool := fun w =>
  (inl (bool_decide (is_Some (files (disk w) !! p))), w).

(** [shutil.copy2(src, dst)]: the bytes of [src] become those of [dst]. *)
Definition copy2 (py : runtime) (src dst : path) : M unit := fun w =>
  match read_err (disk w) !! src, files (disk w) !! src with
  | Some msg, _ => (inr (OSError msg), w)
  | None, None => (inr (OSError (no_such_file py src)), w)
  | None, Some text =>
      match write_err (disk w) !! dst with
      | Some msg => (inr (OSError msg), w)
      | None => (inl tt, emit (EvCopy src dst) (set_files (<[dst := text]> (files (disk w))) w))
      end
  end.

Definition _json_load (py : runtime) (p : path) : M json :=
  text ← read_text py p;
  match json_loads py text with
  | Loaded v => mret v
  | Raised e => raise e
  end.

Definition _json_dump_minified (py : runtime) (obj : json) (p : path) : M unit :=
  write_text p (json_dumps py obj).

(** The file at [p] can be read and [json.load] returns [v] for it. *)
Definition file_parses_to (py : runtime) (w : world) (p : path) (v : json) : Prop :=
  read_err (disk w) !! p = None /\
  exists text, files (disk w) !! p = Some text /\ json_loads py text = Loaded v.

(* ===================================================================== *)
(** * process_file *)
(* ===================================================================== *)

(** [x != map_code] for [map_code] a [str]: only an equal [str] is equal. *)
Definition py_ne_str (x : json) (s : string) : bool :=
  match x with
  | JStr t => negb (String.eqb t s)
  | _ => true
  end.

(** Returns (is_candidate_map, replacements, error_message). *)
Definition process_file (py : runtime) (json_path root : path)
    (id_map : gmap string string) (apply_changes backup : bool) (map_code : string)
    : M (bool * Z * string) :=
  try_except
    (obj ← _json_load py json_path;
     match obj with
     | JObj d =>
         if py_ne_str (get d "map") map_code then mret (false, 0, "")
         else
           let champion := _champion_name_from_path root json_path in
           '(obj, replacements) ← on_changes (fun changes =>
              replace_ids_in_itemset py obj id_map changes champion);
           (if negb (replacements =? 0) && apply_changes then
              (if backup then
                 let backup_path := backup_path_of json_path in
                 present ← path_exists backup_path;
                 if negb present then copy2 py json_path backup_path else mret tt
               else mret tt);;
              _json_dump_minified py obj json_path
            else mret tt);;
           mret (true, replacements, "")
     | _ => mret (false, 0, "Unexpected JSON format (root is not an object)")
     end)
    (fun e =>
       match e with
       | JSONDecodeError detail => mret (false, 0, "Invalid JSON: " +:+ detail)
       | OSError detail => mret (false, 0, "I/O error: " +:+ detail)
       | _ => raise e
       end).

(* ===================================================================== *)
(** * run_fix *)
(* ===================================================================== *)

Module RunStats.
Record t : Type := Make {
  files_scanned : Z;
  files_candidate_sr : Z;
  files_modified : Z;
  ids_replaced : Z
}.
End RunStats.
Abbreviation RunStats := RunStats.Make.

Module RunResult.
Record t : Type := Make {
  stats : RunStats.t;
  changes : ledger;
  modified_files : list path;
  warnings : list string;
  root : option path;
  map_code : string;
  champions_detected : list string
}.
End RunResult.

(** [sorted(xs, key=...)], with [le a b] standing for [key a <= key b].
    Python's sort is stable, and so is this one: an element goes in front of
    the first element that is not smaller, and the list is built from its
    right end. *)
Section Sorted.
Context {A : Type} (le : A -> A -> bool).

Fixpoint insert_sorted (x : A) (l : list A) : list A :=
  match l with
  | [] => [x]
  | y :: l' => if le x y then x :: y :: l' else y :: insert_sorted x l'
  end.

Definition sorted (l : list A) : list A := foldr insert_sorted [] l.
End Sorted.

(** [key=str.casefold]: compare the folded strings, by code point. *)
Definition casefold_le (py : runtime) (a b : string) : bool :=
  String.leb (casefold py a) (casefold py b).

(** The variables of the loop in [run_fix]: [stats], [result.warnings],
    [result.modified_files] and [champions_seen]. *)
Record locals : Type := {
  l_stats : RunStats.t;
  l_warnings : list string;
  l_modified_files : list path;
  l_champions_seen : gset string
}.

Definition initial_locals : locals :=
  {| l_stats := RunStats 0 0 0 0; l_warnings := []; l_modified_files := [];
     l_champions_seen := ∅ |}.

(** Body of [for json_path in iter_itemset_json_files(root)]. *)
Definition run_fix_body (py : runtime) (root : path) (apply_changes backup : bool)
    (map_code : string) (id_map : gmap string string)
    (json_path : path) (l : locals) : M locals :=
  let stats := l_stats l in
  let stats :=
    RunStats (RunStats.files_scanned stats + 1) (RunStats.files_candidate_sr stats)
             (RunStats.files_modified stats) (RunStats.ids_replaced stats) in
  '(is_candidate, replacements, error) ←
     process_file py json_path root id_map apply_changes backup map_code;
  if negb (String.eqb error "") then
    mret {| l_stats := stats;
            l_warnings := l_warnings l ++
              ["WARN: " +:+ path_str py json_path +:+ ": " +:+ error];
            l_modified_files := l_modified_files l;
            l_champions_seen := l_champions_seen l |}
  else if negb is_candidate then
    mret {| l_stats := stats; l_warnings := l_warnings l;
            l_modified_files := l_modified_files l;
            l_champions_seen := l_champions_seen l |}
  else
    mret {| l_stats :=
              RunStats (RunStats.files_scanned stats)
                       (RunStats.files_candidate_sr stats + 1)
                       (RunStats.files_modified stats + (if negb (replacements =? 0) then 1 else 0))
                       (RunStats.ids_replaced stats + replacements);
            l_warnings := l_warnings l;
            l_modified_files :=
              if negb (replacements =? 0) then l_modified_files l ++ [json_path]
              else l_modified_files l;
            l_champions_seen :=
              {[ _champion_name_from_path root json_path ]} ∪ l_champions_seen l |}.

(** The [for] loop over the located paths. *)
Fixpoint for_paths (body : path -> locals -> M locals) (json_paths : list path)
    (l : locals) : M locals :=
  match json_paths with
  | [] => mret l
  | json_path :: rest => l' ← body json_path l; for_paths body rest l'
  end.

(** [run_fix(root, apply_changes=..., backup=..., map_code=...)].
    [json_paths] is what [iter_itemset_json_files(root)] yields during the
    call, in the order it yields it.  [changes] starts as a fresh dict. *)
Definition run_fix (py : runtime) (json_paths : list path) (root : path)
    (apply_changes backup : bool) (map_code : string) : M RunResult.t :=
  let '(id_map, _info_map) := build_maps in
  on_changes (fun _ => (tt, []));;
  l ← for_paths (run_fix_body py root apply_changes backup map_code id_map)
        json_paths initial_locals;
  changes ← on_changes (fun changes => (changes, changes));
  mret {| RunResult.stats := l_stats l;
          RunResult.changes := changes;
          RunResult.modified_files := l_modified_files l;
          RunResult.warnings := l_warnings l;
          RunResult.root := Some root;
          RunResult.map_code := map_code;
          RunResult.champions_detected :=
            sorted (casefold_le py) (elements (l_champions_seen l)) |}.

(* ===================================================================== *)
(** * flatten_changes *)
(* ===================================================================== *)

Module ChangeSummary.
Record t : Type := Make {
  champion : string;
  old_id : string;
  new_id : string;
  name_es : string;
  name_en : string;
  count : Z
}.
End ChangeSummary.
Abbreviation ChangeSummary := ChangeSummary.Make.

(** [key=lambda kv: (-kv[1], kv[0])], tuples compared lexicographically. *)
Definition count_then_id_le (a b : string * Z) : bool :=
  (- snd a <? - snd b) || ((- snd a =? - snd b) && String.leb (fst a) (fst b)).

(** The row appended for one ledger entry. *)
Definition summary_row (info_map : gmap string ItemInfo.t) (champion : string)
    (kv : string * Z) : ChangeSummary.t :=
  let '(old_id, count) := kv in
  match info_map !! old_id with
  | None => ChangeSummary champion old_id "?" ("ID " +:+ old_id) ("ID " +:+ old_id) count
  | Some info =>
      ChangeSummary champion (ItemInfo.old_id info) (ItemInfo.new_id info)
                    (ItemInfo.name_es info) (ItemInfo.name_en info) count
  end.

Definition flatten_changes (py : runtime) (result : RunResult.t) : list ChangeSummary.t :=
  let '(_id_map, info_map) := build_maps in
  flat_map
    (fun champion =>
       let items_by_old_id := default [] (dict_get champion (RunResult.changes result)) in
       map (summary_row info_map champion) (sorted count_then_id_le items_by_old_id))
    (sorted (casefold_le py) (dict_keys (RunResult.changes result))).

(** The (champion, old_id, count) triples a ledger holds, one per pair. *)
Definition ledger_entries (changes : ledger) : list (string * string * Z) :=
  flat_map (fun '(champion, items) => map (fun '(old_id, count) => (champion, old_id, count)) items)
    changes.

(** The same triple, read off a row. *)
Definition row_entry (row : ChangeSummary.t) : string * string * Z :=
  (ChangeSummary.champion row, ChangeSummary.old_id row, ChangeSummary.count row).

(** The order of the rows: champions by folded name and, inside a champion,
    higher counts first and equal counts by identifier. *)
Definition row_le (py : runtime) (r1 r2 : ChangeSummary.t) : Prop :=
  casefold_le py (ChangeSummary.champion r1) (ChangeSummary.champion r2) = true /\
  (ChangeSummary.champion r1 = ChangeSummary.champion r2 ->
   ChangeSummary.count r2 < ChangeSummary.count r1 \/
   (ChangeSummary.count r1 = ChangeSummary.count r2 /\
    String.leb (ChangeSummary.old_id r1) (ChangeSummary.old_id r2) = true)).

(* ===================================================================== *)
(** * Notions used in the statements and proofs *)
(* ===================================================================== *)

(** The check of one entry of the table, as a computation on the literal. *)
Definition entry_okb (kv : string * ItemInfo.t) : bool :=
  let '(old, info) := kv in
  String.eqb (ItemInfo.old_id info) old
  && String.eqb (ItemInfo.new_id info) ("32" +:+ old)
  && negb (String.eqb (ItemInfo.new_id info) "")
  && negb (String.eqb (ItemInfo.new_id info) old)
  && negb (existsb (String.eqb (ItemInfo.new_id info)) (dict_keys EMBEDDED_ITEM_MAP)).

(** The world once a candidate file has been read and walked. *)
Definition walked (py : runtime) (id_map : gmap string string) (root p : path)
    (d : list (string * json)) (w : world) : world :=
  set_changes
    (record_hits (_champion_name_from_path root p) (changes w) (hits py id_map (JObj d)))
    (emit (EvRead p) w).

(** The [if replacements and apply_changes] block, from the walked world. *)
Definition write_back (py : runtime) (id_map : gmap string string) (p : path)
    (backup : bool) (d : list (string * json)) : M unit :=
  (if backup then
     present ← path_exists (backup_path_of p);
     if negb present then copy2 py p (backup_path_of p) else mret tt
   else mret tt);;
  _json_dump_minified py (rewrite_doc py id_map (JObj d)) p.

(** The locals after an iteration that only counted the file as scanned. *)
Definition scanned_only (l : locals) : locals :=
  {| l_stats :=
       RunStats (RunStats.files_scanned (l_stats l) + 1)
                (RunStats.files_candidate_sr (l_stats l))
                (RunStats.files_modified (l_stats l))
                (RunStats.ids_replaced (l_stats l));
     l_warnings := l_warnings l;
     l_modified_files := l_modified_files l;
     l_champions_seen := l_champions_seen l |}.

(** The same, with one warning added. *)
Definition warned (text : string) (l : locals) : locals :=
  {| l_stats := l_stats (scanned_only l);
     l_warnings := l_warnings l ++ [text];
     l_modified_files := l_modified_files l;
     l_champions_seen := l_champions_seen l |}.

(** The exceptions the two [except] clauses of [process_file] catch. *)
Definition handled (e : exn) : bool :=
  match e with
  | JSONDecodeError _ | OSError _ => true
  | _ => false
  end.

(** The text of the error [process_file] returns for a handled exception. *)
Definition error_text (e : exn) : string :=
  match e with
  | JSONDecodeError detail => "Invalid JSON: " +:+ detail
  | OSError detail => "I/O error: " +:+ detail
  | _ => ""
  end.

(** [json.load] on the file at [p], when it raises, raises an exception
    that [process_file] handles. *)
Definition loads_handled (py : runtime) (w : world) (p : path) : Prop :=
  forall text e,
    files (disk w) !! p = Some text -> json_loads py text = Raised e -> handled e = true.

(** The five ways a call of [process_file] can go. *)
Inductive outcome (py : runtime) (p root : path) (id_map : gmap string string)
    (apply_changes backup : bool) (map_code : string) (w : world) : Prop :=
| LoadFailed e w' :
    _json_load py p w = (inr e, w') -> handled e = true ->
    disk w' = disk w -> changes w' = changes w ->
    (trace w' = trace w \/ trace w' = trace w ++ [EvRead p]) ->
    process_file py p root id_map apply_changes backup map_code w =
      (inl (false, 0, error_text e), w') ->
    outcome py p root id_map apply_changes backup map_code w
| LoadRaised e text :
    read_err (disk w) !! p = None -> files (disk w) !! p = Some text ->
    json_loads py text = Raised e -> handled e = false ->
    process_file py p root id_map apply_changes backup map_code w =
      (inr e, emit (EvRead p) w) ->
    outcome py p root id_map apply_changes backup map_code w
| NotObject v :
    file_parses_to py w p v -> (forall d, v <> JObj d) ->
    process_file py p root id_map apply_changes backup map_code w =
      (inl (false, 0, "Unexpected JSON format (root is not an object)"), emit (EvRead p) w) ->
    outcome py p root id_map apply_changes backup map_code w
| OtherMap d :
    file_parses_to py w p (JObj d) -> py_ne_str (get d "map") map_code = true ->
    process_file py p root id_map apply_changes backup map_code w =
      (inl (false, 0, ""), emit (EvRead p) w) ->
    outcome py p root id_map apply_changes backup map_code w
| Candidate d :
    file_parses_to py w p (JObj d) -> py_ne_str (get d "map") map_code = false ->
    outcome py p root id_map apply_changes backup map_code w.

(** The locals after an iteration on a candidate file with [n] replacements. *)
Definition counted (root json_path : path) (n : Z) (l : locals) : locals :=
  {| l_stats :=
       RunStats (RunStats.files_scanned (l_stats l) + 1)
                (RunStats.files_candidate_sr (l_stats l) + 1)
                (RunStats.files_modified (l_stats l) + (if negb (n =? 0) then 1 else 0))
                (RunStats.ids_replaced (l_stats l) + n);
     l_warnings := l_warnings l;
     l_modified_files :=
       if negb (n =? 0) then l_modified_files l ++ [json_path] else l_modified_files l;
     l_champions_seen := {[ _champion_name_from_path root json_path ]} ∪ l_champions_seen l |}.



(** Neither the file nor its backup path refuses to be written. *)
Definition writable (d : fs) (p : path) : Prop :=
  write_err d !! p = None /\ write_err d !! backup_path_of p = None.


(** The rows of one champion. *)
Definition rows_of (changes : ledger) (champion : string) : list ChangeSummary.t :=
  map (summary_row build_maps.2 champion)
      (sorted count_then_id_le (default [] (dict_get champion changes))).

(** ** Tactics *)

(** Unfolds the monadic operations down to functions on worlds. *)
Ltac run_io :=
  unfold process_file, run_fix_body, try_except, _json_load, _json_dump_minified,
    read_text, write_text, copy2, path_exists, on_changes, raise;
  unfold mbind, M_bind, mret, M_ret.

(** Splits on every [match] of the goal, oldest scrutinee first. *)
Ltac split_matches :=
  repeat match goal with
         | |- context [match ?x with _ => _ end] => destruct x eqn:?; simplify_eq
         end.

(* ===================================================================== *)
(** * A concrete runtime and store for the worked examples *)
(* ===================================================================== *)

Module Demo.

(** Text of a value: compact JSON ([python := false]) or the way [str]
    shows it ([python := true]).  Strings are taken to need no escapes. *)
Fixpoint render (python : bool) (v : json) : string :=
  let dq := String (ascii_of_nat 34) EmptyString in
  let quote s := if python then "'" +:+ s +:+ "'" else dq +:+ s +:+ dq in
  let comma := if python then ", " else "," in
  let colon := if python then ": " else ":" in
  match v with
  | JNull => if python then "None" else "null"
  | JBool true => if python then "True" else "true"
  | JBool false => if python then "False" else "false"
  | JInt n => pretty n
  | JFloat text => text
  | JStr s => quote s
  | JArr xs => "[" +:+ String.concat comma (map (render python) xs) +:+ "]"
  | JObj kvs =>
      "{" +:+ String.concat comma
                (map (fun kv => quote (fst kv) +:+ colon +:+ render python (snd kv)) kvs)
          +:+ "}"
  end.

Definition item (id : json) : json := JObj [("id", id); ("count", JInt 1)].

Definition itemset (map_code : string) (ids : list json) : json :=
  JObj [("title", JStr "Support"); ("map", JStr map_code);
        ("blocks", JArr [JObj [("type", JStr "Core"); ("items", JArr (map item ids))]])].

(** The documents the examples put in files. *)
Definition documents : list json := [
  itemset "SR" [JStr "3003"; JStr "9999"];
  itemset "SR" [JInt 3003; JStr "3003"; JInt 6617];
  itemset "SR" [JStr "9999"];
  itemset "ARAM" [JStr "3003"];
  JArr [item (JStr "3003")]
].

(** Content that is not UTF-8: the one byte 0xff. *)
Definition not_utf8 : string := String (ascii_of_nat 255) EmptyString.

(** A decoder that knows the compact text of [documents], cannot decode
    [not_utf8] and rejects every other text. *)
Definition loads (text : string) : load_result :=
  match List.find (fun v => String.eqb (render false v) text) documents with
  | Some v => Loaded v
  | None =>
      if String.eqb text not_utf8 then
        Raised (UnicodeDecodeError
                  "'utf-8' codec can't decode byte 0xff in position 0: invalid start byte")
      else Malformed "Expecting value: line 1 column 1 (char 0)"
  end.

Definition lower (c : ascii) : ascii :=
  let n := nat_of_ascii c in
  if (65 <=? n)%nat && (n <=? 90)%nat then ascii_of_nat (n + 32) else c.

Definition py : runtime := {|
  repr_container := render true;
  casefold := fun s => string_of_list_ascii (map lower (list_ascii_of_string s));
  repr_str := fun s => "'" +:+ s +:+ "'";
  json_loads := loads;
  json_dumps := render false;
  path_str := String.concat "/"
|}.

(** A map with an empty value and with the text of [None] as a key. *)
Definition guarded_map : gmap string string := list_to_map [("3003", ""); ("None", "1")].

Definition root : path := ["Champions"].
Definition ahri : path := ["Champions"; "Ahri"; "Recommended"; "support.json"].
Definition zed : path := ["Champions"; "Zed"; "Recommended"; "aram.json"].

Definition store (fl : list (path * string)) (ro : list path) : world :=
  {| disk := {| files := list_to_map fl; read_err := ∅;
                write_err :=
                  list_to_map
                    (map (fun p => (p, "[Errno 13] Permission denied: '" +:+
                                       String.concat "/" p +:+ "'")) ro) |};
     changes := []; trace := [] |}.

Definition doc_sr : json := itemset "SR" [JStr "3003"; JStr "9999"].
Definition fields_aram : list (string * json) :=
  [("title", JStr "Support"); ("map", JStr "ARAM");
   ("blocks", JArr [JObj [("type", JStr "Core"); ("items", JArr [item (JStr "3003")])]])].
Definition doc_aram : json := JObj fields_aram.
Definition doc_array : json := JArr [item (JStr "3003")].

(** One Summoner's Rift item set. *)
Definition w_sr : world := store [(ahri, render false doc_sr)] [].
(** The same, in a file that cannot be written. *)
Definition w_readonly : world := store [(ahri, render false doc_sr)] [ahri].
(** The same, next to a backup left by an earlier run. *)
Definition w_old_backup : world :=
  store [(ahri, render false doc_sr);
         (backup_path_of ahri, render false (itemset "SR" [JStr "9999"]))] [].
(** An item set for another map. *)
Definition w_aram : world := store [(zed, render false doc_aram)] [].
(** A file whose top-level value is an array. *)
Definition w_array : world := store [(ahri, render false doc_array)] [].
(** Two champions, the first with a file that is not UTF-8. *)
Definition w_not_utf8 : world :=
  store [(ahri, not_utf8); (zed, render false doc_sr)] [].

(** What a run over three champions could report, and a ledger with an
    identifier the table does not know. *)
Definition report (changes : ledger) : RunResult.t :=
  {| RunResult.stats := RunStats 0 0 0 0; RunResult.changes := changes;
     RunResult.modified_files := []; RunResult.warnings := [];
     RunResult.root := Some root; RunResult.map_code := "SR";
     RunResult.champions_detected := [] |}.

Definition ledger_three : ledger :=
  [("Zed", [("3003", 1); ("6617", 3); ("2065", 1)]); ("ahri", [("3004", 2)]);
   ("Braum", [("3190", 1)])].

Definition ledger_unknown : ledger := [("Ahri", [("9999", 1)])].

End Demo.

(* ===================================================================== *)
(** * Further notions: shape of a document, totals of a ledger *)
(* ===================================================================== *)


(** [v'] is [v], or both are objects with the same keys in the same order
    and the same value under every key other than [k]. *)
Definition same_except (k : string) (v v' : json) : Prop :=
  v' = v \/
  exists d d',
    v = JObj d /\ v' = JObj d' /\ dict_keys d' = dict_keys d /\
    forall k', k' <> k -> dict_get k' d' = dict_get k' d.

(** [sum(items.values())] and the sum of it over all champions. *)
Definition items_total (items : list (string * Z)) : Z :=
  foldr (fun kv acc => kv.2 + acc) 0 items.

Definition ledger_total (changes : ledger) : Z :=
  foldr (fun entry acc => items_total entry.2 + acc) 0 changes.



(** ** A runtime that also decodes what the examples write back *)

Module Demo2.

(** The item set of [Demo.doc_sr] once rewritten. *)
Definition doc_sr_fixed : json := Demo.itemset "SR" [JStr "323003"; JStr "9999"].

Definition documents : list json := Demo.documents ++ [doc_sr_fixed].

Definition loads (text : string) : load_result :=
  match List.find (fun v => String.eqb (Demo.render false v) text) documents with
  | Some v => Loaded v
  | None => Malformed "Expecting value: line 1 column 1 (char 0)"
  end.

Definition py : runtime := {|
  repr_container := repr_container Demo.py;
  casefold := casefold Demo.py;
  repr_str := repr_str Demo.py;
  json_loads := loads;
  json_dumps := json_dumps Demo.py;
  path_str := path_str Demo.py
|}.

End Demo2.

(** Every count of the ledger is at least one and every identifier in it is
    a key of [id_map]. *)
Definition ledger_from (id_map : gmap string string) (changes : ledger) : Prop :=
  forall champion items old n,
    In (champion, items) changes -> In (old, n) items ->
    1 <= n /\ is_Some (id_map !! old).

(** The file at [p] is a candidate in the store of [w]: it parses to an
    object whose [map] is the expected code. *)
Definition candidate_file (py : runtime) (map_code : string) (w : world) (p : path) : Prop :=
  exists d, file_parses_to py w p (JObj d) /\ py_ne_str (get d "map") map_code = false.

(* ===================================================================== *)
(** * print_cli_report *)
(* ===================================================================== *)

(** The line feed that starts three of the printed texts. *)
Definition nl : string := String (ascii_of_nat 10) EmptyString.

(** What one [parts.append(...)] appends for a row. *)
Definition row_part (row : ChangeSummary.t) : string :=
  let suffix :=
    if negb (ChangeSummary.count row =? 1) then " x" +:+ pretty (ChangeSummary.count row)
    else "" in
  ChangeSummary.name_es row +:+ " / " +:+ ChangeSummary.name_en row +:+ " (" +:+
  ChangeSummary.old_id row +:+ "->" +:+ ChangeSummary.new_id row +:+ ")" +:+ suffix.

(** [f"- {current}: " + "; ".join(parts)] *)
Definition group_line (current : string) (parts : list string) : string :=
  "- " +:+ current +:+ ": " +:+ String.concat "; " parts.

(** [if current is not None: print(...)], on the texts printed so far. *)
Definition flush_group (current : option string) (parts printed : list string) : list string :=
  match current with
  | Some c => printed ++ [group_line c parts]
  | None => printed
  end.

(** [for row in rows], with its variables [current] and [parts] and the
    texts printed so far. *)
Fixpoint print_groups (rows : list ChangeSummary.t) (current : option string)
    (parts printed : list string) : option string * list string * list string :=
  match rows with
  | [] => (current, parts, printed)
  | row :: rest =>
      let differs :=
        match current with
        | Some c => negb (String.eqb c (ChangeSummary.champion row))
        | None => true
        end in
      if differs then
        print_groups rest (Some (ChangeSummary.champion row)) [row_part row]
          (flush_group current parts printed)
      else print_groups rest current (parts ++ [row_part row]) printed
  end.

(** What is printed before the changes: one text per modified file, the
    warnings, the champions. *)
Definition report_head (py : runtime) (result : RunResult.t) (apply_changes : bool)
    : list string :=
  let action := if apply_changes then "MODIFIED" else "WOULD MODIFY" in
  map (fun p => action +:+ ": " +:+ path_str py p) (RunResult.modified_files result)
  ++ RunResult.warnings result
  ++ match RunResult.champions_detected result with
     | [] => []
     | champions =>
         ["Detected champions (map=" +:+ RunResult.map_code result +:+ "): " +:+
          String.concat ", " champions]
     end.

(** The last text printed. *)
Definition report_summary (result : RunResult.t) : string :=
  nl +:+ "Summary: scanned=" +:+ pretty (RunStats.files_scanned (RunResult.stats result))
  +:+ ", map=" +:+ RunResult.map_code result +:+ "="
  +:+ pretty (RunStats.files_candidate_sr (RunResult.stats result))
  +:+ ", files_changed=" +:+ pretty (RunStats.files_modified (RunResult.stats result))
  +:+ ", ids_changed=" +:+ pretty (RunStats.ids_replaced (RunResult.stats result)).

(** The texts [print_cli_report] prints, one per call of [print]. *)
Definition print_cli_report (py : runtime) (result : RunResult.t) (apply_changes : bool)
    : list string :=
  let printed := report_head py result apply_changes in
  let rows := flatten_changes py result in
  let printed :=
    match rows with
    | [] => printed ++ [nl +:+ "No replacements matched the embedded mapping."]
    | _ =>
        let '(current, parts, printed) :=
          print_groups rows None [] (printed ++ [nl +:+ "Changes by champion (SR 5v5):"]) in
        flush_group current parts printed
    end in
  printed ++ [report_summary result].

(** The champions of a ledger that have at least one entry. *)
Definition has_entries (changes : ledger) (champion : string) : bool :=
  match default [] (dict_get champion changes) with
  | [] => false
  | _ => true
  end.

(* ===================================================================== *)
(** * Theorems *)
(* ===================================================================== *)

(* ===================================================================== *)
(** * Facts about strings *)
(* ===================================================================== *)

Lemma string_length_append (s t : string) :
  String.length (s +:+ t) = (String.length s + String.length t)%nat.
Proof. induction s as [|c s IH]; simpl; [done|by rewrite IH]. Qed.

Lemma ascii_compare_N (a b : ascii) :
  Ascii.compare a b = N.compare (N_of_ascii a) (N_of_ascii b).
Proof. reflexivity. Qed.

Lemma string_leb_trans (s1 s2 s3 : string) :
  String.leb s1 s2 = true -> String.leb s2 s3 = true -> String.leb s1 s3 = true.
Proof.
  unfold String.leb. revert s2 s3.
  induction s1 as [|c1 s1 IH]; intros [|c2 s2] [|c3 s3]; simpl; try done.
  rewrite !ascii_compare_N.
  destruct (N.compare_spec (N_of_ascii c1) (N_of_ascii c2)) as [E12|L12|G12];
    destruct (N.compare_spec (N_of_ascii c2) (N_of_ascii c3)) as [E23|L23|G23];
    try done.
  - rewrite E12, E23, N.compare_refl. apply IH.
  - intros _ _. rewrite E12. by rewrite (proj2 (N.compare_lt_iff _ _) L23).
  - intros _ _. rewrite <- E23. by rewrite (proj2 (N.compare_lt_iff _ _) L12).
  - intros _ _. by rewrite (proj2 (N.compare_lt_iff _ _) (N.lt_trans _ _ _ L12 L23)).
Qed.

(* ===================================================================== *)
(** * Facts about dictionaries *)
(* ===================================================================== *)

Section DictFacts.
Context {V : Type}.
Implicit Types (d : list (string * V)) (k : string) (v : V).

Lemma dict_get_set_eq k v d : dict_get k (dict_set k v d) = Some v.
Proof.
  induction d as [|[k' v'] d IH]; simpl.
  - by rewrite String.eqb_refl.
  - destruct (String.eqb k k') eqn:E; simpl.
    + by rewrite String.eqb_refl.
    + by rewrite E.
Qed.

Lemma dict_get_set_ne k k' v d :
  k <> k' -> dict_get k' (dict_set k v d) = dict_get k' d.
Proof.
  intros Hne. induction d as [|[k0 v0] d IH]; simpl.
  - destruct (String.eqb_spec k' k); congruence.
  - destruct (String.eqb_spec k k0) as [->|]; simpl.
    + destruct (String.eqb_spec k' k0); congruence.
    + destruct (String.eqb_spec k' k0); congruence.
Qed.

Lemma dict_set_set k v v' d : dict_set k v (dict_set k v' d) = dict_set k v d.
Proof.
  induction d as [|[k0 v0] d IH]; simpl.
  - by rewrite String.eqb_refl.
  - destruct (String.eqb k k0) eqn:E; simpl.
    + by rewrite String.eqb_refl.
    + by rewrite E, IH.
Qed.

Lemma dict_keys_set k v d :
  dict_keys (dict_set k v d) =
  match dict_get k d with
  | Some _ => dict_keys d
  | None => dict_keys d ++ [k]
  end.
Proof.
  unfold dict_keys. induction d as [|[k0 v0] d IH]; simpl; [done|].
  destruct (String.eqb_spec k k0) as [->|]; simpl; [done|].
  rewrite IH. by destruct (dict_get k d).
Qed.

Lemma dict_get_None k d : dict_get k d = None <-> ~ In k (dict_keys d).
Proof.
  unfold dict_keys. induction d as [|[k0 v0] d IH]; simpl; [tauto|].
  destruct (String.eqb_spec k k0) as [->|Hne].
  - split; [done|]. intros H. exfalso. apply H. by left.
  - rewrite IH. split.
    + intros H [?|?]; [congruence|tauto].
    + intros H ?. apply H. by right.
Qed.

Lemma dict_wf_set k v d : dict_wf d -> dict_wf (dict_set k v d).
Proof.
  unfold dict_wf. rewrite dict_keys_set.
  destruct (dict_get k d) eqn:E; [done|].
  intros H. apply NoDup_app. split; [done|]. split.
  - intros x Hx Hk. apply list_elem_of_In in Hx. apply list_elem_of_singleton in Hk. subst.
    by apply dict_get_None in E.
  - apply NoDup_singleton.
Qed.
End DictFacts.

(* ===================================================================== *)
(** * The embedded identifier map *)
(* ===================================================================== *)

Lemma build_maps_id_map :
  build_maps.1 =
  list_to_map (map (fun '(old_id, info) => (old_id, ItemInfo.new_id info)) EMBEDDED_ITEM_MAP).
Proof. reflexivity. Qed.

Lemma build_maps_info_map : build_maps.2 = list_to_map EMBEDDED_ITEM_MAP.
Proof. reflexivity. Qed.

(** From here on the two maps are only looked at through these equations. *)
#[global] Opaque build_maps.

Lemma embedded_entries_okb : forallb entry_okb EMBEDDED_ITEM_MAP = true.
Proof. vm_compute. reflexivity. Qed.

Lemma embedded_keys_NoDup : NoDup (dict_keys EMBEDDED_ITEM_MAP).
Proof. apply (bool_decide_unpack _). vm_compute. reflexivity. Qed.

Lemma info_map_lookup old info :
  build_maps.2 !! old = Some info <-> In (old, info) EMBEDDED_ITEM_MAP.
Proof.
  rewrite build_maps_info_map, <- list_elem_of_In.
  symmetry. apply elem_of_list_to_map. apply embedded_keys_NoDup.
Qed.

Lemma id_map_lookup old new :
  build_maps.1 !! old = Some new <->
  exists info, build_maps.2 !! old = Some info /\ ItemInfo.new_id info = new.
Proof.
  rewrite build_maps_id_map. rewrite <- elem_of_list_to_map.
  - rewrite list_elem_of_In, in_map_iff. split.
    + intros [[k info] [Heq Hin]]. inversion Heq; subst.
      exists info. by rewrite info_map_lookup.
    + intros (info & Hin & <-). exists (old, info). by rewrite <- info_map_lookup.
  - replace ((map (fun '(old_id, info) => (old_id, ItemInfo.new_id info)) EMBEDDED_ITEM_MAP).*1)
      with (dict_keys EMBEDDED_ITEM_MAP); [apply embedded_keys_NoDup|].
    unfold dict_keys. rewrite <- list_fmap_compose.
    apply map_ext. by intros [].
Qed.

Lemma id_map_lookup_None k :
  ~ In k (dict_keys EMBEDDED_ITEM_MAP) -> build_maps.1 !! k = None.
Proof.
  intros Hk. destruct (build_maps.1 !! k) as [new|] eqn:E; [|done].
  apply id_map_lookup in E as (info & Hinfo & _).
  apply info_map_lookup in Hinfo. exfalso. apply Hk.
  unfold dict_keys. apply in_map_iff. by exists (k, info).
Qed.

Lemma embedded_entry old info :
  build_maps.2 !! old = Some info ->
  ItemInfo.old_id info = old /\
  ItemInfo.new_id info = "32" +:+ old /\
  ItemInfo.new_id info <> "" /\
  ItemInfo.new_id info <> old /\
  build_maps.1 !! ItemInfo.new_id info = None.
Proof.
  intros H. apply info_map_lookup in H.
  pose proof embedded_entries_okb as Hall.
  rewrite forallb_forall in Hall. specialize (Hall _ H). unfold entry_okb in Hall.
  repeat (apply andb_prop in Hall as [Hall ?]).
  repeat match goal with
         | H : negb _ = true |- _ => apply negb_true_iff in H
         | H : String.eqb _ _ = true |- _ => apply String.eqb_eq in H
         | H : String.eqb _ _ = false |- _ => apply String.eqb_neq in H
         end.
  split; [done|]. split; [done|]. split; [done|]. split; [done|].
  apply id_map_lookup_None. intros Hin.
  match goal with H : existsb _ _ = false |- _ =>
    rewrite <- not_true_iff_false in H; apply H end.
  apply existsb_exists. exists (ItemInfo.new_id info). split; [done|apply String.eqb_refl].
Qed.

Lemma embedded_map_facts old new :
  build_maps.1 !! old = Some new ->
  new = "32" +:+ old /\ new <> "" /\ new <> old /\ build_maps.1 !! new = None.
Proof.
  intros H. apply id_map_lookup in H as (info & Hinfo & <-).
  destruct (embedded_entry _ _ Hinfo) as (_ & H1 & H2 & H3 & H4). done.
Qed.

(** C10.  Every entry of the embedded identifier map sends an old identifier
    to that identifier with [32] in front, which is therefore not empty and
    not the old identifier, and no new identifier is a key of the map.  The
    entry is the one [build_maps] took from the table: the [ItemInfo] under
    the same key, whose [old_id] is the key and whose [new_id] is the value. *)
Theorem embedded_map_new_is_32_old (old new : string) :
  build_maps.1 !! old = Some new ->
  (exists info,
     In (old, info) EMBEDDED_ITEM_MAP /\ build_maps.2 !! old = Some info /\
     ItemInfo.old_id info = old /\ ItemInfo.new_id info = new) /\
  new = "32" +:+ old /\ new <> "" /\ new <> old /\
  build_maps.1 !! new = None /\ build_maps.2 !! new = None.
Proof.
  intros H. pose proof H as H'. apply id_map_lookup in H' as (info & Hinfo & <-).
  destruct (embedded_entry _ _ Hinfo) as (H0 & H1 & H2 & H3 & H4).
  split.
  - exists info. split; [by apply info_map_lookup|done].
  - split; [done|]. split; [done|]. split; [done|]. split; [done|].
    destruct (build_maps.2 !! ItemInfo.new_id info) as [info'|] eqn:E; [|done].
    assert (build_maps.1 !! ItemInfo.new_id info = Some (ItemInfo.new_id info')) as Hx
      by (apply id_map_lookup; by exists info').
    congruence.
Qed.

Lemma embedded_map_new_is_32_old_witness :
  build_maps.1 !! "3003" = Some "323003" /\
  ((exists info,
      In ("3003", info) EMBEDDED_ITEM_MAP /\ build_maps.2 !! "3003" = Some info /\
      ItemInfo.old_id info = "3003" /\ ItemInfo.new_id info = "323003") /\
   "323003" = "32" +:+ "3003" /\ "323003" <> "" /\ "323003" <> "3003" /\
   build_maps.1 !! "323003" = None /\ build_maps.2 !! "323003" = None).
Proof.
  assert (build_maps.1 !! "3003" = Some "323003") as H by (vm_compute; reflexivity).
  split; [exact H|].
  exact (embedded_map_new_is_32_old "3003" "323003" H).
Defined.

(* ===================================================================== *)
(** * The walk of replace_ids_in_itemset *)
(* ===================================================================== *)

Lemma get_set_eq d k v : get (dict_set k v d) k = v.
Proof. unfold get. by rewrite dict_get_set_eq. Qed.

Lemma hit_of_spec py id_map item old new :
  hit_of py id_map item = Some (old, new) <-> is_hit py id_map item old new.
Proof.
  unfold hit_of, is_hit. split.
  - destruct item as [| | | | | |d]; try done.
    destruct (dict_get "id" d) as [raw|] eqn:Hraw; [|done].
    destruct (id_map !! py_str py raw) as [new'|] eqn:Hnew;
      [|by destruct raw].
    destruct (decide (new' <> "" /\ new' <> py_str py raw)) as [[H1 H2]|];
      [|by destruct raw].
    intros H. exists d, raw.
    assert (raw <> JNull /\ py_str py raw = old /\ new' = new) as (? & <- & <-).
    { destruct raw; inversion H; subst; done. }
    done.
  - intros (d & raw & -> & Hraw & Hnull & -> & Hnew & H1 & H2).
    rewrite Hraw, Hnew. rewrite decide_True by done. by destruct raw.
Qed.

Lemma for_item_spec py id_map champion item r c :
  for_item py id_map champion item (r, c) =
  (rewrite_item py id_map item,
   match hit_of py id_map item with
   | Some (old, _) => (r + 1, record_change c champion old)
   | None => (r, c)
   end).
Proof.
  unfold for_item, rewrite_item, hit_of, get.
  destruct item as [| | | | | |d]; try done.
  destruct (dict_get "id" d) as [raw|] eqn:Hraw; [|done].
  destruct (id_map !! py_str py raw) as [new|] eqn:Hnew; [|by destruct raw].
  destruct (String.eqb_spec new ""), (String.eqb_spec new (py_str py raw)); simpl.
  all: try (rewrite decide_False by tauto; by destruct raw).
  rewrite decide_True by done. by destruct raw.
Qed.

Lemma for_each_cons body x xs st :
  for_each body (x :: xs) st =
  (let '(x', st') := body x st in
   let '(rest', st'') := for_each body xs st' in (x' :: rest', st'')).
Proof. reflexivity. Qed.

Lemma for_each_for_item py id_map champion items r c :
  for_each (for_item py id_map champion) items (r, c) =
  (map (rewrite_item py id_map) items,
   (r + Z.of_nat (length (omap (hit_of py id_map) items)),
    record_hits champion c (omap (hit_of py id_map) items))).
Proof.
  revert r c. induction items as [|item items IH]; intros r c.
  - simpl. by rewrite Z.add_0_r.
  - rewrite for_each_cons, for_item_spec. simpl.
    destruct (hit_of py id_map item) as [[old new]|]; rewrite IH; simpl.
    + change (list_omap json (string * string)%type (hit_of py id_map) items)
        with (omap (hit_of py id_map) items).
      f_equal. f_equal. lia.
    + done.
Qed.

Lemma for_block_spec py id_map champion block r c :
  for_block py id_map champion block (r, c) =
  (rewrite_block py id_map block,
   (r + Z.of_nat (length (omap (hit_of py id_map) (items_of_block block))),
    record_hits champion c (omap (hit_of py id_map) (items_of_block block)))).
Proof.
  unfold for_block, rewrite_block, items_of_block.
  destruct block as [| | | | | |d]; simpl; rewrite ?Z.add_0_r; try done.
  destruct (get d "items") as [| | | | |items|]; simpl; rewrite ?Z.add_0_r; try done.
  by rewrite for_each_for_item.
Qed.

Lemma for_each_for_block py id_map champion blocks r c :
  for_each (for_block py id_map champion) blocks (r, c) =
  (map (rewrite_block py id_map) blocks,
   (r + Z.of_nat (length (omap (hit_of py id_map) (flat_map items_of_block blocks))),
    record_hits champion c (omap (hit_of py id_map) (flat_map items_of_block blocks)))).
Proof.
  revert r c. induction blocks as [|block blocks IH]; intros r c.
  - simpl. by rewrite Z.add_0_r.
  - rewrite for_each_cons, for_block_spec, IH. simpl. rewrite omap_app, length_app.
    unfold record_hits. rewrite foldl_app. f_equal. f_equal. lia.
Qed.

Lemma replace_ids_in_itemset_walk py obj id_map changes champion :
  replace_ids_in_itemset py obj id_map changes champion =
  (rewrite_doc py id_map obj,
   Z.of_nat (length (hits py id_map obj)),
   record_hits champion changes (hits py id_map obj)).
Proof.
  unfold replace_ids_in_itemset, rewrite_doc, hits, walked_items.
  destruct obj as [| | | | | |d]; try done.
  destruct (get d "blocks") as [| | | | |blocks|]; try done.
  by rewrite for_each_for_block.
Qed.

Lemma replace_ids_in_itemset_nonneg py obj id_map changes champion :
  0 <= (replace_ids_in_itemset py obj id_map changes champion).1.2.
Proof. rewrite replace_ids_in_itemset_walk. simpl. lia. Qed.

Lemma ledger_count_record_change c champion old champion' old' :
  ledger_count (record_change c champion old) champion' old' =
  ledger_count c champion' old' +
  (if decide (champion' = champion /\ old' = old) then 1 else 0).
Proof.
  unfold ledger_count, record_change.
  destruct (decide (champion' = champion)) as [->|Hc].
  - rewrite dict_get_set_eq. simpl.
    destruct (decide (old' = old)) as [->|Ho].
    + rewrite dict_get_set_eq, decide_True by done. done.
    + rewrite dict_get_set_ne, decide_False by (try tauto; congruence). lia.
  - rewrite dict_get_set_ne, decide_False by (try tauto; congruence). lia.
Qed.

Lemma ledger_count_record_hits champion hs c champion' old' :
  ledger_count (record_hits champion c hs) champion' old' =
  ledger_count c champion' old' +
  (if decide (champion' = champion) then occurrences old' hs else 0).
Proof.
  unfold record_hits, occurrences. revert c.
  induction hs as [|[old new] hs IH]; intros c; simpl.
  - case_decide; lia.
  - rewrite IH, ledger_count_record_change, filter_cons. simpl.
    destruct (decide (champion' = champion)) as [->|Hc].
    + destruct (decide (old = old')) as [->|Ho].
      * rewrite decide_True by done. simpl length. lia.
      * rewrite decide_False by (intros [_ ->]; done). lia.
    + rewrite decide_False by tauto. lia.
Qed.

(** ** A second pass finds nothing *)

Section SecondPass.
Context (py : runtime) (id_map : gmap string string).
(** No new identifier is itself an old one. *)
Hypothesis range_fresh : forall old new, id_map !! old = Some new -> id_map !! new = None.

Lemma rewrite_item_miss item :
  hit_of py id_map item = None -> rewrite_item py id_map item = item.
Proof. unfold rewrite_item. intros H. destruct item; try done. by rewrite H. Qed.

Lemma hit_of_rewrite_item item : hit_of py id_map (rewrite_item py id_map item) = None.
Proof.
  destruct (hit_of py id_map item) as [[old new]|] eqn:Hhit.
  - pose proof Hhit as Hspec. apply hit_of_spec in Hspec.
    destruct Hspec as (d & raw & -> & _ & _ & _ & Hnew & _ & _).
    unfold rewrite_item. rewrite Hhit.
    unfold hit_of. rewrite dict_get_set_eq. simpl.
    by rewrite (range_fresh _ _ Hnew).
  - by rewrite rewrite_item_miss.
Qed.

Lemma rewrite_item_twice item :
  rewrite_item py id_map (rewrite_item py id_map item) = rewrite_item py id_map item.
Proof. apply rewrite_item_miss, hit_of_rewrite_item. Qed.

Lemma omap_hit_of_rewritten items :
  omap (hit_of py id_map) (map (rewrite_item py id_map) items) = [].
Proof.
  induction items as [|item items IH]; [done|].
  simpl. rewrite hit_of_rewrite_item. apply IH.
Qed.

Lemma items_of_rewrite_block block :
  items_of_block (rewrite_block py id_map block) =
  map (rewrite_item py id_map) (items_of_block block).
Proof.
  unfold rewrite_block, items_of_block.
  destruct block as [| | | | | |d]; try done.
  destruct (get d "items") as [| | | | |items|] eqn:E; rewrite ?E; try done.
  by rewrite get_set_eq.
Qed.

Lemma rewrite_block_twice block :
  rewrite_block py id_map (rewrite_block py id_map block) = rewrite_block py id_map block.
Proof.
  unfold rewrite_block.
  destruct block as [| | | | | |d]; try done.
  destruct (get d "items") as [| | | | |items|] eqn:E; rewrite ?E; try done.
  rewrite get_set_eq, dict_set_set. do 3 f_equal.
  rewrite map_map. apply map_ext. intros. apply rewrite_item_twice.
Qed.

Lemma items_of_rewritten_blocks blocks :
  flat_map items_of_block (map (rewrite_block py id_map) blocks) =
  map (rewrite_item py id_map) (flat_map items_of_block blocks).
Proof.
  induction blocks as [|b blocks IH]; [done|].
  cbn [map flat_map]. by rewrite map_app, items_of_rewrite_block, IH.
Qed.

Lemma walked_items_rewrite_doc obj :
  walked_items (rewrite_doc py id_map obj) =
  map (rewrite_item py id_map) (walked_items obj).
Proof.
  unfold rewrite_doc, walked_items.
  destruct obj as [| | | | | |d]; try done.
  destruct (get d "blocks") as [| | | | |blocks|] eqn:E; rewrite ?E; try done.
  rewrite get_set_eq. apply items_of_rewritten_blocks.
Qed.

Lemma hits_rewrite_doc obj : hits py id_map (rewrite_doc py id_map obj) = [].
Proof. unfold hits. rewrite walked_items_rewrite_doc. apply omap_hit_of_rewritten. Qed.

Lemma rewrite_doc_twice obj :
  rewrite_doc py id_map (rewrite_doc py id_map obj) = rewrite_doc py id_map obj.
Proof.
  unfold rewrite_doc.
  destruct obj as [| | | | | |d]; try done.
  destruct (get d "blocks") as [| | | | |blocks|] eqn:E; rewrite ?E; try done.
  rewrite get_set_eq, dict_set_set. do 3 f_equal.
  rewrite map_map. apply map_ext. intros. apply rewrite_block_twice.
Qed.
End SecondPass.

Lemma embedded_range_fresh old new :
  build_maps.1 !! old = Some new -> build_maps.1 !! new = None.
Proof.
  intros H. apply id_map_lookup in H as (info & Hinfo & <-).
  by destruct (embedded_entry _ _ Hinfo) as (_ & _ & _ & _ & ?).
Qed.

(** C4.  With the embedded identifier map the transform is idempotent: on
    every JSON value, a second application returns the value the first one
    returned and reports zero replacements (and records nothing). *)
Theorem replace_ids_in_itemset_idempotent (py : runtime) (obj : json)
    (changes : ledger) (champion : string) :
  let '(obj1, n1, changes1) :=
    replace_ids_in_itemset py obj build_maps.1 changes champion in
  let '(obj2, n2, changes2) :=
    replace_ids_in_itemset py obj1 build_maps.1 changes1 champion in
  obj2 = obj1 /\ n2 = 0 /\ changes2 = changes1.
Proof.
  rewrite !replace_ids_in_itemset_walk.
  rewrite (rewrite_doc_twice _ _ embedded_range_fresh).
  rewrite (hits_rewrite_doc _ _ embedded_range_fresh).
  done.
Qed.

(** ** What the walk does, item by item *)

Lemma rewrite_item_hit py id_map d old new :
  is_hit py id_map (JObj d) old new ->
  rewrite_item py id_map (JObj d) = JObj (dict_set "id" (JStr new) d).
Proof. intros H. apply hit_of_spec in H. unfold rewrite_item. by rewrite H. Qed.

Lemma rewrite_item_no_hit py id_map item :
  (forall old new, ~ is_hit py id_map item old new) ->
  rewrite_item py id_map item = item.
Proof.
  intros H. apply rewrite_item_miss.
  destruct (hit_of py id_map item) as [[old new]|] eqn:E; [|done].
  apply hit_of_spec in E. by apply H in E.
Qed.

(** C2, as amended.  [replace_ids_in_itemset] visits the elements of the
    [items] list of every element of [blocks] that is an object.  A visited
    item is a hit when it is an object whose [id] is present and not null,
    the text of the id is a key of the identifier map, and the value under
    that key is not empty and differs from the text.  The [id] of every hit
    is overwritten with the mapped value as a string, the counter is the
    number of hits, the ledger entry of (champion, old text) grows by the
    number of hits with that text, and every other item, and everything else
    in the document, stays as it was. *)
Theorem replace_ids_in_itemset_rewrites_hits (py : runtime) (obj : json)
    (id_map : gmap string string) (changes : ledger) (champion : string) :
  let '(obj', replacements, changes') :=
    replace_ids_in_itemset py obj id_map changes champion in
  obj' = rewrite_doc py id_map obj /\
  replacements = Z.of_nat (length (hits py id_map obj)) /\
  (forall champion' old,
     ledger_count changes' champion' old =
     ledger_count changes champion' old +
     (if decide (champion' = champion) then occurrences old (hits py id_map obj) else 0)) /\
  (forall item old new,
     hit_of py id_map item = Some (old, new) <-> is_hit py id_map item old new) /\
  (forall d old new,
     is_hit py id_map (JObj d) old new ->
     rewrite_item py id_map (JObj d) = JObj (dict_set "id" (JStr new) d)) /\
  (forall item,
     (forall old new, ~ is_hit py id_map item old new) ->
     rewrite_item py id_map item = item).
Proof.
  rewrite replace_ids_in_itemset_walk.
  split; [done|]. split; [done|]. split; [apply ledger_count_record_hits|].
  split; [apply hit_of_spec|]. split; [apply rewrite_item_hit|apply rewrite_item_no_hit].
Qed.

(** With the embedded map the two extra conditions never decide anything:
    [None] is not a key and no value is empty. *)
Lemma embedded_hit_as_stated py item old new :
  is_hit py build_maps.1 item old new <->
  exists d raw,
    item = JObj d /\ dict_get "id" d = Some raw /\
    old = py_str py raw /\ build_maps.1 !! old = Some new /\ new <> old.
Proof.
  unfold is_hit. split.
  - intros (d & raw & ? & ? & ? & ? & ? & ? & ?). by exists d, raw.
  - intros (d & raw & -> & Hraw & -> & Hnew & Hne). exists d, raw.
    destruct (embedded_map_facts _ _ Hnew) as (_ & Hnonempty & _).
    repeat split; try done.
    intros ->. change (py_str py JNull) with "None" in Hnew.
    rewrite id_map_lookup_None in Hnew; [done|].
    rewrite <- list_elem_of_In. apply (bool_decide_unpack _). vm_compute. reflexivity.
Qed.

(** C2 as stated fails: the text of both ids is a key of the map and the
    mapped value differs from it, yet nothing is overwritten or counted --
    one mapped value is empty, the other id is null. *)
Lemma replace_ids_in_itemset_guards_counterexample :
  (Demo.guarded_map !! py_str Demo.py (JStr "3003") = Some ""
   /\ "" <> py_str Demo.py (JStr "3003")) /\
  (Demo.guarded_map !! py_str Demo.py JNull = Some "1"
   /\ "1" <> py_str Demo.py JNull) /\
  replace_ids_in_itemset Demo.py (Demo.itemset "SR" [JStr "3003"; JNull])
    Demo.guarded_map [] "Ahri"
  = (Demo.itemset "SR" [JStr "3003"; JNull], 0, []).
Proof. vm_compute. repeat split; discriminate. Qed.

(** The scenario with ids [3003] and [9999] in one block: the first becomes
    [323003], the second stays, one replacement, ledger entry [3003 -> 1]. *)
Example replace_ids_in_itemset_scenario :
  replace_ids_in_itemset Demo.py Demo.doc_sr build_maps.1 [] "Ahri" =
  (Demo.itemset "SR" [JStr "323003"; JStr "9999"], 1, [("Ahri", [("3003", 1)])]).
Proof. vm_compute. reflexivity. Qed.

(** An id stored as a number is compared through its decimal text and is
    replaced by a string. *)
Example replace_ids_in_itemset_number :
  replace_ids_in_itemset Demo.py (Demo.itemset "SR" [JInt 3003; JStr "3003"; JInt 6617])
    build_maps.1 [] "Ahri" =
  (Demo.itemset "SR" [JStr "323003"; JStr "323003"; JStr "326617"], 3,
   [("Ahri", [("3003", 2); ("6617", 1)])]).
Proof. vm_compute. reflexivity. Qed.

(* ===================================================================== *)
(** * process_file, case by case *)
(* ===================================================================== *)

Lemma _json_load_parses py w p v :
  file_parses_to py w p v -> _json_load py p w = (inl v, emit (EvRead p) w).
Proof.
  intros (Hr & text & Hf & Hl). run_io. by rewrite Hr, Hf, Hl.
Qed.

(** Writing back raises nothing but [OSError]. *)
Lemma write_back_raises py id_map p backup d w e w2 :
  write_back py id_map p backup d w = (inr e, w2) -> exists detail, e = OSError detail.
Proof.
  unfold write_back. generalize (rewrite_doc py id_map (JObj d)) as doc. intros doc.
  run_io. intros H.
  destruct backup; [destruct (bool_decide (is_Some (files (disk w) !! backup_path_of p)))|];
    simpl in H;
    repeat match goal with
           | H : context [match ?x with _ => _ end] |- _ => destruct x eqn:?; simplify_eq; eauto
           end.
Qed.

Lemma process_file_candidate py p root id_map apply_changes backup map_code w d :
  file_parses_to py w p (JObj d) ->
  py_ne_str (get d "map") map_code = false ->
  process_file py p root id_map apply_changes backup map_code w =
  let n := Z.of_nat (length (hits py id_map (JObj d))) in
  let w1 := walked py id_map root p d w in
  if negb (n =? 0) && apply_changes then
    match write_back py id_map p backup d w1 with
    | (inl _, w2) => (inl (true, n, ""), w2)
    | (inr e, w2) => (inl (false, 0, error_text e), w2)
    end
  else (inl (true, n, ""), w1).
Proof.
  intros Hload Hmap. unfold process_file, try_except.
  unfold mbind at 1. unfold M_bind at 1. rewrite (_json_load_parses _ _ _ _ Hload).
  rewrite Hmap. unfold on_changes. unfold mbind at 1. unfold M_bind at 1.
  cbn [changes emit]. rewrite replace_ids_in_itemset_walk.
  cbv zeta. fold (walked py id_map root p d w).
  destruct (negb (Z.of_nat (length (hits py id_map (JObj d))) =? 0) && apply_changes) eqn:E.
  - fold (write_back py id_map p backup d).
    unfold mbind at 1. unfold M_bind at 1.
    destruct (write_back py id_map p backup d (walked py id_map root p d w))
      as [[u|e] w2] eqn:Hw; [done|].
    by destruct (write_back_raises _ _ _ _ _ _ _ _ Hw) as [detail ->].
  - done.
Qed.

Lemma process_file_not_object py p root id_map apply_changes backup map_code w v :
  file_parses_to py w p v -> (forall d, v <> JObj d) ->
  process_file py p root id_map apply_changes backup map_code w =
  (inl (false, 0, "Unexpected JSON format (root is not an object)"), emit (EvRead p) w).
Proof.
  intros Hload Hv. unfold process_file, try_except.
  unfold mbind at 1. unfold M_bind at 1. rewrite (_json_load_parses _ _ _ _ Hload).
  destruct v; try done. by destruct (Hv kvs).
Qed.

Lemma process_file_other_map py p root id_map apply_changes backup map_code w d :
  file_parses_to py w p (JObj d) ->
  py_ne_str (get d "map") map_code = true ->
  process_file py p root id_map apply_changes backup map_code w =
  (inl (false, 0, ""), emit (EvRead p) w).
Proof.
  intros Hload Hmap. unfold process_file, try_except.
  unfold mbind at 1. unfold M_bind at 1. rewrite (_json_load_parses _ _ _ _ Hload).
  by rewrite Hmap.
Qed.

(** C1, as amended.  When the file parses as JSON and its top-level value is
    not an object, [process_file] returns is_candidate = false, count = 0
    and the error text [Unexpected JSON format (root is not an object)],
    having only read the file; the loop of [run_fix] counts the file as
    scanned and records one warning for it, made of the path and that text. *)
Theorem process_file_root_not_object (py : runtime) (json_path root : path)
    (id_map : gmap string string) (apply_changes backup : bool) (map_code : string)
    (w : world) (v : json) (l : locals) :
  file_parses_to py w json_path v ->
  (forall d, v <> JObj d) ->
  process_file py json_path root id_map apply_changes backup map_code w =
    (inl (false, 0, "Unexpected JSON format (root is not an object)"),
     emit (EvRead json_path) w) /\
  run_fix_body py root apply_changes backup map_code id_map json_path l w =
    (inl (warned ("WARN: " +:+ path_str py json_path +:+
                  ": Unexpected JSON format (root is not an object)") l),
     emit (EvRead json_path) w).
Proof.
  intros Hload Hv. split; [by apply process_file_not_object with (v := v)|].
  unfold run_fix_body. unfold mbind at 1. unfold M_bind at 1.
  by rewrite (process_file_not_object _ _ _ _ _ _ _ _ _ Hload Hv).
Qed.

Lemma process_file_root_not_object_witness :
  file_parses_to Demo.py Demo.w_array Demo.ahri Demo.doc_array /\
  (forall d, Demo.doc_array <> JObj d) /\
  process_file Demo.py Demo.ahri Demo.root build_maps.1 true true "SR" Demo.w_array =
    (inl (false, 0, "Unexpected JSON format (root is not an object)"),
     emit (EvRead Demo.ahri) Demo.w_array) /\
  run_fix_body Demo.py Demo.root true true "SR" build_maps.1 Demo.ahri initial_locals
      Demo.w_array =
    (inl (warned ("WARN: " +:+ path_str Demo.py Demo.ahri +:+
                  ": Unexpected JSON format (root is not an object)") initial_locals),
     emit (EvRead Demo.ahri) Demo.w_array).
Proof.
  assert (file_parses_to Demo.py Demo.w_array Demo.ahri Demo.doc_array) as Hload.
  { split; [reflexivity|]. eexists. split; [reflexivity|]. vm_compute. reflexivity. }
  assert (forall d, Demo.doc_array <> JObj d) as Hnot by (intros d; discriminate).
  split; [exact Hload|]. split; [exact Hnot|].
  exact (process_file_root_not_object Demo.py Demo.ahri Demo.root build_maps.1 true true "SR"
           Demo.w_array Demo.doc_array initial_locals Hload Hnot).
Defined.

(** C1 as stated fails: the file holds a JSON array, the error text returned
    is not empty, and the run reports a warning for the file. *)
Lemma process_file_root_not_object_counterexample :
  file_parses_to Demo.py Demo.w_array Demo.ahri Demo.doc_array /\
  (process_file Demo.py Demo.ahri Demo.root build_maps.1 false true "SR" Demo.w_array).1
    = inl (false, 0, "Unexpected JSON format (root is not an object)") /\
  "Unexpected JSON format (root is not an object)" <> "" /\
  match (run_fix Demo.py [Demo.ahri] Demo.root false true "SR" Demo.w_array).1 with
  | inl result => RunResult.warnings result
  | inr _ => []
  end
  = ["WARN: Champions/Ahri/Recommended/support.json: Unexpected JSON format (root is not an object)"].
Proof.
  split; [|split; [|split]].
  - split; [reflexivity|]. eexists. split; [reflexivity|]. vm_compute. reflexivity.
  - vm_compute. reflexivity.
  - discriminate.
  - vm_compute. reflexivity.
Qed.

(** C5.  When the top-level object has a [map] field different from the
    expected value, [process_file] returns is_candidate = false, count = 0
    and an empty error, having only read the file: the store and the ledger
    are as before, whatever the flags.  The loop of [run_fix] then counts the
    file as scanned and changes nothing else: not the candidate count, not
    the modified count or list, not the warnings. *)
Theorem process_file_other_map_skipped (py : runtime) (json_path root : path)
    (id_map : gmap string string) (apply_changes backup : bool) (map_code : string)
    (w : world) (d : list (string * json)) (l : locals) :
  file_parses_to py w json_path (JObj d) ->
  py_ne_str (get d "map") map_code = true ->
  process_file py json_path root id_map apply_changes backup map_code w =
    (inl (false, 0, ""), emit (EvRead json_path) w) /\
  disk (emit (EvRead json_path) w) = disk w /\
  changes (emit (EvRead json_path) w) = changes w /\
  run_fix_body py root apply_changes backup map_code id_map json_path l w =
    (inl (scanned_only l), emit (EvRead json_path) w).
Proof.
  intros Hload Hmap. split; [by apply process_file_other_map with (d := d)|].
  split; [done|]. split; [done|].
  unfold run_fix_body. unfold mbind at 1. unfold M_bind at 1.
  by rewrite (process_file_other_map _ _ _ _ _ _ _ _ _ Hload Hmap).
Qed.

Lemma process_file_other_map_skipped_witness :
  file_parses_to Demo.py Demo.w_aram Demo.zed (JObj Demo.fields_aram) /\
  py_ne_str (get Demo.fields_aram "map") "SR" = true /\
  process_file Demo.py Demo.zed Demo.root build_maps.1 true true "SR" Demo.w_aram =
    (inl (false, 0, ""), emit (EvRead Demo.zed) Demo.w_aram) /\
  disk (emit (EvRead Demo.zed) Demo.w_aram) = disk Demo.w_aram /\
  changes (emit (EvRead Demo.zed) Demo.w_aram) = changes Demo.w_aram /\
  run_fix_body Demo.py Demo.root true true "SR" build_maps.1 Demo.zed initial_locals Demo.w_aram =
    (inl (scanned_only initial_locals), emit (EvRead Demo.zed) Demo.w_aram).
Proof.
  assert (file_parses_to Demo.py Demo.w_aram Demo.zed (JObj Demo.fields_aram)) as Hload.
  { split; [reflexivity|]. eexists. split; [reflexivity|]. vm_compute. reflexivity. }
  assert (py_ne_str (get Demo.fields_aram "map") "SR" = true) as Hmap by reflexivity.
  split; [exact Hload|]. split; [exact Hmap|].
  exact (process_file_other_map_skipped Demo.py Demo.zed Demo.root build_maps.1 true true "SR"
           Demo.w_aram Demo.fields_aram initial_locals Hload Hmap).
Defined.

Lemma error_text_nonempty e : handled e = true -> error_text e <> "".
Proof. by destruct e. Qed.

Lemma _json_load_cases py p w :
  (exists v, file_parses_to py w p v) \/
  (exists e w', _json_load py p w = (inr e, w') /\ disk w' = disk w /\ changes w' = changes w /\
                (trace w' = trace w \/ trace w' = trace w ++ [EvRead p]) /\
                (handled e = false ->
                 w' = emit (EvRead p) w /\ read_err (disk w) !! p = None /\
                 exists text, files (disk w) !! p = Some text /\ json_loads py text = Raised e)).
Proof.
  unfold file_parses_to. run_io.
  destruct (read_err (disk w) !! p) eqn:Hr.
  { right. eexists _, _. repeat split; eauto; discriminate. }
  destruct (files (disk w) !! p) as [text|] eqn:Hf.
  2: { right. eexists _, _. repeat split; eauto; discriminate. }
  destruct (json_loads py text) eqn:Hl; [left; eauto 10|].
  right. eexists _, _. repeat split; eauto.
Qed.

Lemma process_file_load_error py p root id_map apply_changes backup map_code w e w' :
  _json_load py p w = (inr e, w') -> handled e = true ->
  process_file py p root id_map apply_changes backup map_code w =
  (inl (false, 0, error_text e), w').
Proof.
  intros H He. unfold process_file, try_except.
  unfold mbind at 1. unfold M_bind at 1. rewrite H. by destruct e.
Qed.

(** What [_json_load] raises and is not handled leaves [process_file]. *)
Lemma process_file_load_raises py p root id_map apply_changes backup map_code w e w' :
  _json_load py p w = (inr e, w') -> handled e = false ->
  process_file py p root id_map apply_changes backup map_code w = (inr e, w').
Proof.
  intros H He. unfold process_file, try_except.
  unfold mbind at 1. unfold M_bind at 1. rewrite H. by destruct e.
Qed.

Lemma process_file_outcome py p root id_map apply_changes backup map_code w :
  outcome py p root id_map apply_changes backup map_code w.
Proof.
  destruct (_json_load_cases py p w) as [[v Hv]|(e & w' & He & Hd & Hc & Ht & Hun)].
  - destruct v as [| | | | | |d].
    1-6: eapply NotObject; [done|done|by eapply process_file_not_object].
    destruct (py_ne_str (get d "map") map_code) eqn:Hmap.
    + eapply OtherMap; [done|done|by eapply process_file_other_map].
    + by eapply Candidate.
  - destruct (handled e) eqn:Hh.
    + eapply LoadFailed; [done|done|done|done|done|by apply process_file_load_error].
    + destruct (Hun eq_refl) as (-> & Hr & text & Hf & Hl).
      eapply LoadRaised; [done|done|done|done|by apply process_file_load_raises].
Qed.

(** [process_file] returns, or raises the exception that [json.load] raised
    on the file and that it does not handle. *)
Lemma process_file_returns py p root id_map apply_changes backup map_code w :
  (exists c n e w',
     process_file py p root id_map apply_changes backup map_code w = (inl (c, n, e), w') /\
     0 <= n) \/
  (exists e text,
     files (disk w) !! p = Some text /\ json_loads py text = Raised e /\ handled e = false /\
     process_file py p root id_map apply_changes backup map_code w
       = (inr e, emit (EvRead p) w)).
Proof.
  destruct (process_file_outcome py p root id_map apply_changes backup map_code w)
    as [e w' _ _ _ _ _ H|e text _ Hf Hl He H|v _ _ H|d _ _ H|d Hload Hmap].
  2: by right; eauto 10.
  1-3: left; rewrite H; eexists _, _, _, _; (split; [reflexivity|lia]).
  left. rewrite (process_file_candidate _ _ _ _ _ _ _ _ _ Hload Hmap). cbv zeta.
  split_matches; eexists _, _, _, _; (split; [reflexivity|lia]).
Qed.

(** So it returns on a file on which [json.load] raises nothing else. *)
Lemma process_file_returns_handled py p root id_map apply_changes backup map_code w :
  loads_handled py w p ->
  exists c n e w',
    process_file py p root id_map apply_changes backup map_code w = (inl (c, n, e), w') /\
    0 <= n.
Proof.
  intros Hh.
  destruct (process_file_returns py p root id_map apply_changes backup map_code w)
    as [H|(e & text & Hf & Hl & He & _)]; [done|].
  rewrite (Hh text e Hf Hl) in He. discriminate.
Qed.

(** A file reported as a candidate parsed to an object with the expected
    [map], and the count returned is the number of hits. *)
Lemma process_file_candidate_inv py p root id_map apply_changes backup map_code w n e w' :
  process_file py p root id_map apply_changes backup map_code w = (inl (true, n, e), w') ->
  exists d,
    file_parses_to py w p (JObj d) /\ py_ne_str (get d "map") map_code = false /\
    n = Z.of_nat (length (hits py id_map (JObj d))) /\ e = "".
Proof.
  destruct (process_file_outcome py p root id_map apply_changes backup map_code w)
    as [e0 w0 _ _ _ _ _ H|e0 text _ _ _ _ H|v _ _ H|d _ _ H|d Hload Hmap].
  1-4: rewrite H; intros; simplify_eq.
  rewrite (process_file_candidate _ _ _ _ _ _ _ _ _ Hload Hmap). cbv zeta.
  intros H. exists d. split; [done|]. split; [done|].
  revert H. split_matches; intros; by simplify_eq.
Qed.

Lemma run_fix_body_candidate py root apply_changes backup map_code id_map json_path l w n w' :
  process_file py json_path root id_map apply_changes backup map_code w
    = (inl (true, n, ""), w') ->
  run_fix_body py root apply_changes backup map_code id_map json_path l w
    = (inl (counted root json_path n l), w').
Proof.
  intros H. unfold run_fix_body. unfold mbind at 1. unfold M_bind at 1. by rewrite H.
Qed.





(* ===================================================================== *)
(** * Backups *)
(* ===================================================================== *)

Lemma backup_path_of_ne p : backup_path_of p <> p.
Proof.
  unfold backup_path_of, parent, name. intros H.
  destruct (list_eq_nil_dec p) as [->|Hp]; [done|].
  rewrite (app_removelast_last "" Hp) in H at 3.
  apply app_inv_head in H. inversion H as [Hs].
  apply (f_equal String.length) in Hs. rewrite string_length_append in Hs.
  simpl in Hs. lia.
Qed.

(** C7, as amended.  With [apply_changes] and [backup] both set, the events
    of a call that overwrites the file are: the read, then the copy to the
    path with [.bak] added unless a file was already there, then the write
    -- so the copy is complete before the write starts, and a failed copy
    leaves the file as it was.  Afterwards the backup path holds what it
    held before when it existed before, and otherwise the text the file had
    before the call. *)
Theorem process_file_backup_before_write (py : runtime) (json_path root : path)
    (id_map : gmap string string) (map_code : string) (w : world) :
  let '(r, w') := process_file py json_path root id_map true true map_code w in
  let bak := backup_path_of json_path in
  exists evs,
    trace w' = trace w ++ evs /\
    (In (EvWrite json_path) evs ->
       (exists n, r = inl (true, n, "") /\ 0 < n) /\
       match files (disk w) !! bak with
       | Some kept =>
           evs = [EvRead json_path; EvWrite json_path] /\
           files (disk w') !! bak = Some kept
       | None =>
           evs = [EvRead json_path; EvCopy json_path bak; EvWrite json_path] /\
           files (disk w') !! bak = files (disk w) !! json_path
       end) /\
    (~ In (EvWrite json_path) evs ->
       files (disk w') !! json_path = files (disk w) !! json_path).
Proof.
  pose proof (backup_path_of_ne json_path) as Hne.
  destruct (process_file_outcome py json_path root id_map true true map_code w)
    as [e w' _ _ Hd _ Ht H|e text _ _ _ _ H|v _ _ H|d _ _ H|d Hload Hmap].
  - rewrite H. cbv zeta. rewrite Hd.
    destruct Ht as [Ht|Ht].
    + exists []. rewrite Ht, app_nil_r. simpl. split; [done|]. split; [tauto|done].
    + exists [EvRead json_path]. rewrite Ht. simpl. split; [done|].
      split; [intuition discriminate|done].
  - rewrite H. exists [EvRead json_path]. simpl. split; [done|].
    split; [intuition discriminate|done].
  - rewrite H. exists [EvRead json_path]. simpl. split; [done|].
    split; [intuition discriminate|done].
  - rewrite H. exists [EvRead json_path]. simpl. split; [done|].
    split; [intuition discriminate|done].
  - rewrite (process_file_candidate _ _ _ _ _ _ _ _ _ Hload Hmap). cbv zeta.
    set (n := Z.of_nat (length (hits py id_map (JObj d)))).
    assert (0 <= n) as Hn by (unfold n; lia).
    destruct (Z.eqb_spec n 0) as [Hz|Hz]; simpl negb; cbn [andb].
    { exists [EvRead json_path]. simpl. split; [done|]. split; [intuition discriminate|done]. }
    unfold write_back. run_io. unfold walked. simpl.
    destruct (files (disk w) !! backup_path_of json_path) as [kept|] eqn:Hbak.
    + rewrite bool_decide_eq_true_2 by eauto. simpl.
      destruct (write_err (disk w) !! json_path).
      * exists [EvRead json_path]. simpl. split; [done|]. split; [intuition discriminate|done].
      * exists [EvRead json_path; EvWrite json_path]. simpl.
        split; [by rewrite <- app_assoc|].
        split; [|tauto]. intros _. split; [exists n; split; [done|lia]|].
        split; [done|]. by rewrite lookup_insert_ne.
    + rewrite bool_decide_eq_false_2 by (intros [? ?]; done). simpl.
      destruct Hload as (Hr & text & Hf & _). rewrite Hr, Hf.
      destruct (write_err (disk w) !! backup_path_of json_path).
      * exists [EvRead json_path]. simpl. split; [done|]. split; [intuition discriminate|done].
      * simpl. destruct (write_err (disk w) !! json_path).
        -- exists [EvRead json_path; EvCopy json_path (backup_path_of json_path)]. simpl.
           split; [by rewrite <- app_assoc|]. split; [intuition discriminate|].
           intros _. by rewrite lookup_insert_ne.
        -- exists [EvRead json_path; EvCopy json_path (backup_path_of json_path);
                   EvWrite json_path]. simpl.
           split; [by rewrite <- !app_assoc|]. split; [|tauto].
           intros _. split; [exists n; split; [done|lia]|]. split; [done|].
           rewrite lookup_insert_ne by done. by rewrite lookup_insert_eq.
Qed.

(** C7 as stated fails: the file is overwritten with backups enabled, a
    backup from an earlier run is there and is kept, and so the backup does
    not hold the text the file had before this run. *)
Lemma process_file_backup_counterexample :
  (process_file Demo.py Demo.ahri Demo.root build_maps.1 true true "SR" Demo.w_old_backup).1
    = inl (true, 1, "") /\
  files (disk (process_file Demo.py Demo.ahri Demo.root build_maps.1 true true "SR"
                 Demo.w_old_backup).2) !! Demo.ahri
    <> files (disk Demo.w_old_backup) !! Demo.ahri /\
  files (disk (process_file Demo.py Demo.ahri Demo.root build_maps.1 true true "SR"
                 Demo.w_old_backup).2) !! backup_path_of Demo.ahri
    = files (disk Demo.w_old_backup) !! backup_path_of Demo.ahri /\
  files (disk (process_file Demo.py Demo.ahri Demo.root build_maps.1 true true "SR"
                 Demo.w_old_backup).2) !! backup_path_of Demo.ahri
    <> files (disk Demo.w_old_backup) !! Demo.ahri.
Proof. vm_compute. repeat split; discriminate. Qed.

(** A first run on a file without backup: read, copy, write. *)
Example process_file_backup_first_run :
  trace (process_file Demo.py Demo.ahri Demo.root build_maps.1 true true "SR" Demo.w_sr).2
    = [EvRead Demo.ahri; EvCopy Demo.ahri (backup_path_of Demo.ahri); EvWrite Demo.ahri] /\
  files (disk (process_file Demo.py Demo.ahri Demo.root build_maps.1 true true "SR"
                 Demo.w_sr).2) !! backup_path_of Demo.ahri
    = files (disk Demo.w_sr) !! Demo.ahri.
Proof. vm_compute. done. Qed.

(* ===================================================================== *)
(** * Dry run against applied run *)
(* ===================================================================== *)


Lemma ends_with_json_bak s : ends_with_json (s +:+ ".bak") = false.
Proof.
  unfold ends_with_json.
  assert (List.rev (list_ascii_of_string (s +:+ ".bak")) =
          List.rev (list_ascii_of_string ".bak") ++ List.rev (list_ascii_of_string s)) as ->.
  { rewrite <- rev_app_distr. f_equal.
    induction s as [|c s IH]; simpl; [done|by rewrite IH]. }
  done.
Qed.

Lemma name_backup_path_of p : name (backup_path_of p) = name p +:+ ".bak".
Proof. unfold backup_path_of, name. apply last_last. Qed.

Lemma is_itemset_path_name root p : is_itemset_path root p -> ends_with_json (name p) = true.
Proof.
  intros (champion & file & -> & H). unfold name.
  change (root ++ [champion; "Recommended"; file])
    with (root ++ [champion; "Recommended"] ++ [file]).
  by rewrite app_assoc, last_last.
Qed.

Lemma backup_path_not_itemset root p q : is_itemset_path root q -> backup_path_of p <> q.
Proof.
  intros Hq <-. apply is_itemset_path_name in Hq.
  by rewrite name_backup_path_of, ends_with_json_bak in Hq.
Qed.











(* ===================================================================== *)
(** * sorted *)
(* ===================================================================== *)

Section SortedFacts.
Context {A : Type} (le : A -> A -> bool).
Hypothesis le_total : forall a b, le a b = true \/ le b a = true.
Hypothesis le_trans : forall a b c, le a b = true -> le b c = true -> le a c = true.

Lemma insert_sorted_perm x l : Permutation (insert_sorted le x l) (x :: l).
Proof.
  induction l as [|y l IH]; simpl; [done|].
  destruct (le x y); [done|]. rewrite IH. apply perm_swap.
Qed.

Lemma sorted_perm l : Permutation (sorted le l) l.
Proof.
  unfold sorted. induction l as [|x l IH]; simpl; [done|].
  by rewrite insert_sorted_perm, IH.
Qed.

Lemma insert_sorted_sorted x l :
  StronglySorted (fun a b => le a b = true) l ->
  StronglySorted (fun a b => le a b = true) (insert_sorted le x l).
Proof.
  induction l as [|y l IH]; simpl; intros Hl.
  - repeat constructor.
  - apply StronglySorted_cons in Hl as [Hy Hl].
    destruct (le x y) eqn:Hxy.
    + apply StronglySorted_cons. split; [|by apply StronglySorted_cons].
      constructor; [done|]. eapply Forall_impl; [exact Hy|]. intros z Hz. by eapply le_trans.
    + apply StronglySorted_cons. split; [|by apply IH].
      rewrite insert_sorted_perm. constructor; [|done].
      destruct (le_total x y); congruence.
Qed.

Lemma sorted_sorted l : StronglySorted (fun a b => le a b = true) (sorted le l).
Proof.
  unfold sorted. induction l as [|x l IH]; simpl; [constructor|].
  by apply insert_sorted_sorted.
Qed.
End SortedFacts.

Lemma string_leb_refl s : String.leb s s = true.
Proof. by destruct (String.leb_total s s). Qed.

Lemma casefold_le_total py a b : casefold_le py a b = true \/ casefold_le py b a = true.
Proof. apply String.leb_total. Qed.

Lemma casefold_le_trans py a b c :
  casefold_le py a b = true -> casefold_le py b c = true -> casefold_le py a c = true.
Proof. apply string_leb_trans. Qed.

Lemma count_then_id_le_spec a b :
  count_then_id_le a b = true <->
  a.2 > b.2 \/ (a.2 = b.2 /\ String.leb a.1 b.1 = true).
Proof.
  unfold count_then_id_le. rewrite orb_true_iff, andb_true_iff, Z.ltb_lt, Z.eqb_eq.
  simpl. split; intros [?|[? ?]]; (left; lia) || (right; split; [lia|done]).
Qed.

Lemma count_then_id_le_total a b :
  count_then_id_le a b = true \/ count_then_id_le b a = true.
Proof.
  rewrite !count_then_id_le_spec.
  destruct (Z.lt_total a.2 b.2) as [?|[?|?]]; [right; left; lia| |left; left; lia].
  destruct (String.leb_total a.1 b.1); [left|right]; right; split; (done || lia).
Qed.

Lemma count_then_id_le_trans a b c :
  count_then_id_le a b = true -> count_then_id_le b c = true -> count_then_id_le a c = true.
Proof.
  rewrite !count_then_id_le_spec.
  intros [?|[? ?]] [?|[? ?]]; try (left; lia).
  right. split; [lia|]. by eapply string_leb_trans.
Qed.

(* ===================================================================== *)
(** * flatten_changes *)
(* ===================================================================== *)

Lemma flatten_changes_unfold py result :
  flatten_changes py result =
  flat_map (rows_of (RunResult.changes result))
    (sorted (casefold_le py) (dict_keys (RunResult.changes result))).
Proof. unfold flatten_changes, rows_of. by destruct build_maps. Qed.

Lemma row_entry_summary_row champion kv :
  row_entry (summary_row build_maps.2 champion kv) = (champion, kv.1, kv.2).
Proof.
  destruct kv as [old n]. unfold summary_row, row_entry.
  destruct (build_maps.2 !! old) as [info|] eqn:E; simpl; [|done].
  by destruct (embedded_entry _ _ E) as (-> & _).
Qed.

Lemma summary_row_content champion kv :
  let row := summary_row build_maps.2 champion kv in
  match build_maps.2 !! ChangeSummary.old_id row with
  | Some info =>
      ChangeSummary.new_id row = ItemInfo.new_id info /\
      ChangeSummary.name_es row = ItemInfo.name_es info /\
      ChangeSummary.name_en row = ItemInfo.name_en info
  | None =>
      ChangeSummary.new_id row = "?" /\
      ChangeSummary.name_es row = "ID " +:+ ChangeSummary.old_id row /\
      ChangeSummary.name_en row = "ID " +:+ ChangeSummary.old_id row
  end.
Proof.
  destruct kv as [old n]. unfold summary_row.
  destruct (build_maps.2 !! old) as [info|] eqn:E; simpl.
  - destruct (embedded_entry _ _ E) as (-> & _). by rewrite E.
  - by rewrite E.
Qed.

Lemma dict_get_In {V} (d : list (string * V)) k v :
  dict_wf d -> In (k, v) d -> dict_get k d = Some v.
Proof.
  unfold dict_wf, dict_keys. induction d as [|[k0 v0] d IH]; simpl; [done|].
  intros Hnd [Heq|Hin].
  - simplify_eq. by rewrite String.eqb_refl.
  - apply NoDup_cons in Hnd as [Hk0 Hnd].
    destruct (String.eqb_spec k k0) as [->|]; [|by apply IH].
    exfalso. apply Hk0. apply list_elem_of_In, in_map_iff. by exists (k0, v).
Qed.

Lemma flat_map_perm_pointwise {A B} (f g : A -> list B) l :
  (forall x, In x l -> Permutation (f x) (g x)) ->
  Permutation (flat_map f l) (flat_map g l).
Proof.
  induction l as [|x l IH]; simpl; intros H; [done|].
  apply Permutation_app; [apply H; by left|apply IH; intros; apply H; by right].
Qed.

Lemma rows_cover_ledger py (changes : ledger) :
  dict_wf changes ->
  Permutation
    (map row_entry (flat_map (rows_of changes) (sorted (casefold_le py) (dict_keys changes))))
    (ledger_entries changes).
Proof.
  intros Hwf.
  set (h := fun c : string =>
              map (fun kv : string * Z => (c, kv.1, kv.2)) (default [] (dict_get c changes))).
  transitivity (flat_map h (sorted (casefold_le py) (dict_keys changes))).
  { rewrite flat_map_concat_map, concat_map, map_map, <- flat_map_concat_map.
    apply flat_map_perm_pointwise. intros c _. unfold rows_of, h.
    rewrite map_map.
    rewrite (map_ext _ (fun kv : string * Z => (c, kv.1, kv.2)))
      by (intros; apply row_entry_summary_row).
    apply Permutation_map, sorted_perm. }
  transitivity (flat_map h (dict_keys changes)).
  { apply Permutation_flat_map, sorted_perm. }
  unfold ledger_entries, dict_keys.
  assert (forall l, (forall e, In e l -> In e changes) ->
            flat_map h (map fst l) =
            flat_map (fun '(champion, items) =>
                        map (fun '(old_id, count) => (champion, old_id, count)) items) l) as Hl.
  { induction l as [|[c items] l IH]; simpl; intros Hin; [done|].
    rewrite IH by (intros; apply Hin; by right). f_equal.
    unfold h. rewrite (dict_get_In changes c items Hwf) by (apply Hin; by left).
    simpl. apply map_ext. by intros []. }
  by rewrite Hl.
Qed.

Lemma rows_of_sorted py changes champion :
  StronglySorted (row_le py) (rows_of changes champion) /\
  Forall (fun row => ChangeSummary.champion row = champion) (rows_of changes champion).
Proof.
  unfold rows_of.
  pose proof (sorted_sorted count_then_id_le count_then_id_le_total count_then_id_le_trans
                (default [] (dict_get champion changes))) as Hs.
  induction Hs as [|kv l Hl IH Hkv]; simpl; [by split; constructor|].
  destruct IH as [IH1 IH2].
  assert (ChangeSummary.champion (summary_row build_maps.2 champion kv) = champion) as Hc.
  { pose proof (row_entry_summary_row champion kv) as H. unfold row_entry in H. by simplify_eq. }
  split; [|by constructor].
  constructor; [done|].
  rewrite Forall_map. eapply Forall_impl; [exact Hkv|].
  intros kv' Hle. apply count_then_id_le_spec in Hle.
  pose proof (row_entry_summary_row champion kv) as H1.
  pose proof (row_entry_summary_row champion kv') as H2.
  unfold row_entry in H1, H2. simplify_eq.
  unfold row_le. rewrite H, H1, H0, H2, H3, H4.
  split; [apply string_leb_refl|]. intros _.
  destruct Hle as [?|[? ?]]; [left; lia|by right].
Qed.

Lemma rows_sorted py changes (cs : list string) :
  StronglySorted (fun a b => casefold_le py a b = true) cs ->
  NoDup cs ->
  StronglySorted (row_le py) (flat_map (rows_of changes) cs).
Proof.
  intros Hs. induction Hs as [|c cs Hcs IH Hc]; simpl; intros Hnd; [constructor|].
  apply NoDup_cons in Hnd as [Hnotin Hnd].
  destruct (rows_of_sorted py changes c) as [Hsorted Hchamp].
  apply StronglySorted_app. split; [|split; [done|by apply IH]].
  intros r1 r2 Hr1 Hr2.
  apply list_elem_of_In, in_flat_map in Hr2 as (c2 & Hc2 & Hr2).
  destruct (rows_of_sorted py changes c2) as [_ Hchamp2].
  rewrite Forall_forall in Hchamp. rewrite Forall_forall in Hchamp2.
  rewrite Forall_forall in Hc.
  unfold row_le. rewrite (Hchamp r1 Hr1).
  apply list_elem_of_In in Hr2. rewrite (Hchamp2 r2 Hr2).
  split; [by apply Hc, list_elem_of_In|].
  intros ->. exfalso. by apply Hnotin, list_elem_of_In.
Qed.

(** C8, as amended.  For a ledger that holds each champion once,
    [flatten_changes] emits exactly one row per (champion, old identifier)
    pair of the ledger, carrying that pair's count; the rows are ordered by
    champion name compared after case folding and, within a champion, by
    descending count, then by ascending identifier; a row whose identifier
    is in the embedded table carries the table's new identifier and names,
    and a row whose identifier is not carries the marker [?] and, as both
    names, the text [ID] followed by a space and the identifier. *)
Theorem flatten_changes_rows (py : runtime) (result : RunResult.t) :
  dict_wf (RunResult.changes result) ->
  Permutation (map row_entry (flatten_changes py result))
              (ledger_entries (RunResult.changes result)) /\
  StronglySorted (row_le py) (flatten_changes py result) /\
  Forall (fun row =>
            match build_maps.2 !! ChangeSummary.old_id row with
            | Some info =>
                ChangeSummary.new_id row = ItemInfo.new_id info /\
                ChangeSummary.name_es row = ItemInfo.name_es info /\
                ChangeSummary.name_en row = ItemInfo.name_en info
            | None =>
                ChangeSummary.new_id row = "?" /\
                ChangeSummary.name_es row = "ID " +:+ ChangeSummary.old_id row /\
                ChangeSummary.name_en row = "ID " +:+ ChangeSummary.old_id row
            end)
         (flatten_changes py result).
Proof.
  intros Hwf. rewrite flatten_changes_unfold.
  split; [by apply rows_cover_ledger|]. split.
  - apply rows_sorted.
    + apply sorted_sorted; [apply casefold_le_total|apply casefold_le_trans].
    + unfold dict_wf in Hwf. by rewrite sorted_perm.
  - apply Forall_forall. intros row Hrow.
    apply list_elem_of_In, in_flat_map in Hrow as (c & _ & Hrow).
    unfold rows_of in Hrow. apply in_map_iff in Hrow as (kv & <- & _).
    apply summary_row_content.
Qed.

Lemma flatten_changes_rows_witness :
  dict_wf (RunResult.changes (Demo.report Demo.ledger_three)) /\
  Permutation (map row_entry (flatten_changes Demo.py (Demo.report Demo.ledger_three)))
              (ledger_entries (RunResult.changes (Demo.report Demo.ledger_three))) /\
  StronglySorted (row_le Demo.py) (flatten_changes Demo.py (Demo.report Demo.ledger_three)) /\
  Forall (fun row =>
            match build_maps.2 !! ChangeSummary.old_id row with
            | Some info =>
                ChangeSummary.new_id row = ItemInfo.new_id info /\
                ChangeSummary.name_es row = ItemInfo.name_es info /\
                ChangeSummary.name_en row = ItemInfo.name_en info
            | None =>
                ChangeSummary.new_id row = "?" /\
                ChangeSummary.name_es row = "ID " +:+ ChangeSummary.old_id row /\
                ChangeSummary.name_en row = "ID " +:+ ChangeSummary.old_id row
            end)
         (flatten_changes Demo.py (Demo.report Demo.ledger_three)).
Proof.
  assert (dict_wf (RunResult.changes (Demo.report Demo.ledger_three))) as Hwf.
  { apply (bool_decide_unpack _). vm_compute. reflexivity. }
  split; [exact Hwf|].
  exact (flatten_changes_rows Demo.py (Demo.report Demo.ledger_three) Hwf).
Defined.

(** The rows of that ledger, in the order they are emitted. *)
Example flatten_changes_three :
  map row_entry (flatten_changes Demo.py (Demo.report Demo.ledger_three)) =
  [("ahri", "3004", 2); ("Braum", "3190", 1);
   ("Zed", "6617", 3); ("Zed", "2065", 1); ("Zed", "3003", 1)].
Proof. vm_compute. reflexivity. Qed.

(** C8 as stated fails: the fallback row does not use the bare identifier as
    its display names, it uses the identifier with [ID] and a space in front. *)
Lemma flatten_changes_fallback_counterexample :
  flatten_changes Demo.py (Demo.report Demo.ledger_unknown) =
    [ChangeSummary "Ahri" "9999" "?" "ID 9999" "ID 9999" 1] /\
  build_maps.2 !! "9999" = None /\
  "ID 9999" <> "9999".
Proof. vm_compute. repeat split; discriminate. Qed.

(** ** The ledger of a run is a dict *)

Lemma record_change_wf changes champion old :
  dict_wf changes -> dict_wf (record_change changes champion old).
Proof. apply dict_wf_set. Qed.

Lemma record_hits_wf champion hs changes :
  dict_wf changes -> dict_wf (record_hits champion changes hs).
Proof.
  unfold record_hits. revert changes.
  induction hs as [|h hs IH]; intros changes Hwf; simpl; [done|].
  by apply IH, record_change_wf.
Qed.

Lemma copy2_changes py src dst w : changes (copy2 py src dst w).2 = changes w.
Proof. unfold copy2. by split_matches. Qed.

Lemma write_text_changes p text w : changes (write_text p text w).2 = changes w.
Proof. unfold write_text. by split_matches. Qed.

Lemma write_back_changes py id_map p backup d w :
  changes (write_back py id_map p backup d w).2 = changes w.
Proof.
  unfold write_back, _json_dump_minified, path_exists, mbind, M_bind, mret, M_ret.
  generalize (json_dumps py (rewrite_doc py id_map (JObj d))) as text. intros text.
  pose proof (write_text_changes p text w) as Hw.
  destruct backup; [destruct (negb (bool_decide _))|]; try done.
  pose proof (copy2_changes py p (backup_path_of p) w) as Hc.
  destruct (copy2 py p (backup_path_of p) w) as [[u|e] w1]; [|done].
  simpl in Hc. rewrite <- Hc. apply write_text_changes.
Qed.

Lemma process_file_changes_wf py p root id_map apply_changes backup map_code w :
  dict_wf (changes w) ->
  dict_wf (changes (process_file py p root id_map apply_changes backup map_code w).2).
Proof.
  intros Hwf.
  destruct (process_file_outcome py p root id_map apply_changes backup map_code w)
    as [e w' _ _ _ Hc _ H|e text _ _ _ _ H|v _ _ H|d _ _ H|d Hload Hmap].
  1-4: rewrite H; simpl; by rewrite ?Hc.
  rewrite (process_file_candidate _ _ _ _ _ _ _ _ _ Hload Hmap). cbv zeta.
  assert (dict_wf (changes (walked py id_map root p d w))) as Hw1.
  { unfold walked. simpl. by apply record_hits_wf. }
  destruct (_ && _); [|done].
  pose proof (write_back_changes py id_map p backup d (walked py id_map root p d w)) as Hc.
  destruct (write_back _ _ _ _ _ _) as [[u|e] w2]; simpl in *; by rewrite Hc.
Qed.

Lemma run_fix_body_changes_wf py root apply_changes backup map_code id_map p l w :
  dict_wf (changes w) ->
  dict_wf (changes (run_fix_body py root apply_changes backup map_code id_map p l w).2).
Proof.
  intros Hwf.
  pose proof (process_file_changes_wf py p root id_map apply_changes backup map_code w Hwf) as H.
  unfold run_fix_body, mbind, M_bind.
  destruct (process_file _ _ _ _ _ _ _ _) as [[[[c n] e]|x] w']; [|done].
  by destruct (negb (String.eqb e "")); [|destruct (negb c)].
Qed.

Lemma for_paths_changes_wf py root apply_changes backup map_code id_map json_paths l w :
  dict_wf (changes w) ->
  dict_wf (changes (for_paths (run_fix_body py root apply_changes backup map_code id_map)
                      json_paths l w).2).
Proof.
  revert l w. induction json_paths as [|p ps IH]; intros l w Hwf; [done|].
  cbn [for_paths]. unfold mbind, M_bind.
  pose proof (run_fix_body_changes_wf py root apply_changes backup map_code id_map p l w Hwf) as H.
  destruct (run_fix_body _ _ _ _ _ _ _ _ _) as [[l1|e] w1]; [by apply IH|done].
Qed.

(** The ledger [run_fix] returns holds each champion once, so
    [flatten_changes] is always called on a ledger of that kind. *)
Lemma run_fix_changes_wf py json_paths root apply_changes backup map_code w result w' :
  run_fix py json_paths root apply_changes backup map_code w = (inl result, w') ->
  dict_wf (RunResult.changes result).
Proof.
  unfold run_fix. destruct build_maps as [id_map info_map].
  unfold on_changes. unfold mbind at 1. unfold M_bind at 1. cbv beta iota zeta.
  pose proof (for_paths_changes_wf py root apply_changes backup map_code id_map json_paths
                initial_locals (set_changes [] w)) as H.
  unfold mbind, M_bind.
  destruct (for_paths _ _ _ _) as [[l|e] w1]; [|done].
  unfold mret, M_ret. intros Heq. simplify_eq. simpl. apply H. constructor.
Qed.

(* ===================================================================== *)
(** * More on the walk: what it leaves alone *)
(* ===================================================================== *)

Lemma dict_set_id {V} (k : string) (v : V) (d : list (string * V)) :
  dict_get k d = Some v -> dict_set k v d = d.
Proof.
  induction d as [|[k0 v0] d IH]; simpl; [done|].
  destruct (String.eqb_spec k k0) as [->|]; intros H; [by simplify_eq|].
  by rewrite IH.
Qed.

Lemma get_JArr d k xs : get d k = JArr xs -> dict_get k d = Some (JArr xs).
Proof. unfold get. destruct (dict_get k d); intros H; by subst. Qed.

Lemma rewrite_item_same py id_map item :
  hit_of py id_map item = None -> rewrite_item py id_map item = item.
Proof. unfold rewrite_item. intros H. destruct item; try done. by rewrite H. Qed.

Lemma rewrite_item_changes py id_map item old new :
  hit_of py id_map item = Some (old, new) -> rewrite_item py id_map item <> item.
Proof.
  intros Hhit. pose proof Hhit as Hspec. apply hit_of_spec in Hspec.
  destruct Hspec as (d & raw & -> & Hraw & _ & -> & _ & _ & Hne).
  unfold rewrite_item. rewrite Hhit. intros Heq. inversion Heq as [Hd].
  pose proof (dict_get_set_eq "id" (JStr new) d) as Hget.
  rewrite Hd, Hraw in Hget. by simplify_eq.
Qed.

Lemma map_rewrite_item_same py id_map items :
  omap (hit_of py id_map) items = [] -> map (rewrite_item py id_map) items = items.
Proof.
  induction items as [|item items IH]; simpl; [done|].
  destruct (hit_of py id_map item) eqn:E; [done|].
  intros H. by rewrite rewrite_item_same, IH.
Qed.

Lemma rewrite_block_same py id_map block :
  omap (hit_of py id_map) (items_of_block block) = [] -> rewrite_block py id_map block = block.
Proof.
  unfold rewrite_block, items_of_block. destruct block as [| | | | | |d]; try done.
  destruct (get d "items") as [| | | | |items|] eqn:E; try done.
  intros H. rewrite map_rewrite_item_same by done.
  by rewrite (dict_set_id _ _ _ (get_JArr _ _ _ E)).
Qed.

Lemma map_rewrite_block_same py id_map blocks :
  omap (hit_of py id_map) (flat_map items_of_block blocks) = [] ->
  map (rewrite_block py id_map) blocks = blocks.
Proof.
  induction blocks as [|b blocks IH]; [done|].
  cbn [flat_map map]. rewrite omap_app. intros H. apply app_eq_nil in H as [H1 H2].
  by rewrite rewrite_block_same, IH.
Qed.

Lemma rewrite_doc_same py id_map obj :
  hits py id_map obj = [] -> rewrite_doc py id_map obj = obj.
Proof.
  unfold hits, walked_items, rewrite_doc. destruct obj as [| | | | | |d]; try done.
  destruct (get d "blocks") as [| | | | |blocks|] eqn:E; try done.
  intros H. rewrite map_rewrite_block_same by done.
  by rewrite (dict_set_id _ _ _ (get_JArr _ _ _ E)).
Qed.

Lemma map_fixed_In {A} (f : A -> A) (l : list A) x : map f l = l -> In x l -> f x = x.
Proof.
  induction l as [|y l IH]; simpl; [done|].
  intros H Hin. injection H as H1 H2. destruct Hin as [<-|Hin]; [done|by apply IH].
Qed.

Lemma walked_items_rewritten py id_map obj :
  walked_items (rewrite_doc py id_map obj) = map (rewrite_item py id_map) (walked_items obj).
Proof.
  unfold rewrite_doc, walked_items.
  destruct obj as [| | | | | |d]; try done.
  destruct (get d "blocks") as [| | | | |blocks|] eqn:E; rewrite ?E; try done.
  rewrite get_set_eq.
  induction blocks as [|b blocks IH] in |- *; [done|].
  cbn [map flat_map]. rewrite map_app. f_equal; [|apply IH].
  unfold rewrite_block, items_of_block.
  destruct b as [| | | | | |bd]; try done.
  destruct (get bd "items") as [| | | | |items|] eqn:Eb; rewrite ?Eb; try done.
  by rewrite get_set_eq.
Qed.

Lemma rewrite_doc_fixed_no_hits py id_map obj :
  rewrite_doc py id_map obj = obj -> hits py id_map obj = [].
Proof.
  intros Hfix. pose proof (walked_items_rewritten py id_map obj) as Hw.
  rewrite Hfix in Hw. symmetry in Hw. unfold hits.
  induction (walked_items obj) as [|item items IH]; [done|].
  simpl. destruct (hit_of py id_map item) as [[old new]|] eqn:E.
  - exfalso. apply (rewrite_item_changes _ _ _ _ _ E).
    apply (map_fixed_In _ _ _ Hw). by left.
  - apply IH. simpl in Hw. by injection Hw as _ Hw.
Qed.

(** X1.  [replace_ids_in_itemset] reports zero replacements exactly when it
    returns the document it was given, unchanged in every field; and then
    the ledger is left as it was. *)
Theorem replace_ids_in_itemset_zero_iff_unchanged (py : runtime) (obj : json)
    (id_map : gmap string string) (changes : ledger) (champion : string) :
  let '(obj', replacements, changes') :=
    replace_ids_in_itemset py obj id_map changes champion in
  (replacements = 0 <-> obj' = obj) /\ (replacements = 0 -> changes' = changes).
Proof.
  rewrite replace_ids_in_itemset_walk. split; [split|].
  - intros H. apply rewrite_doc_same. by destruct (hits py id_map obj).
  - intros H. by rewrite (rewrite_doc_fixed_no_hits _ _ _ H).
  - intros H. by destruct (hits py id_map obj).
Qed.

Lemma same_except_set k v d :
  is_Some (dict_get k d) -> same_except k (JObj d) (JObj (dict_set k v d)).
Proof.
  intros [v0 Hv0]. right. exists d, (dict_set k v d).
  split; [done|]. split; [done|]. split.
  - by rewrite dict_keys_set, Hv0.
  - intros k' Hk'. apply dict_get_set_ne. congruence.
Qed.



Lemma same_except_rewrite_doc py id_map obj :
  same_except "blocks" obj (rewrite_doc py id_map obj).
Proof.
  unfold rewrite_doc. destruct obj as [| | | | | |d]; try (by left).
  destruct (get d "blocks") as [| | | | |blocks|] eqn:E; try (by left).
  apply same_except_set. by rewrite (get_JArr _ _ _ E).
Qed.




(* ===================================================================== *)
(** * The grouping key of a path *)
(* ===================================================================== *)

Lemma relative_to_app root rest : relative_to root (root ++ rest) = Some rest.
Proof. induction root as [|r root IH]; simpl; [done|]. by rewrite String.eqb_refl. Qed.

Lemma parent_app_last (p : path) (x : string) : parent (p ++ [x]) = p.
Proof. unfold parent. apply removelast_last. Qed.

(** X3.  For a file [<root>/<champion>/<subdir>/<file>] the grouping key is
    [<champion>], the first part of the path below the root; and when the
    root given is not a prefix of the path, the fallback -- the name of the
    directory two levels above the file -- is [<champion>] as well. *)
Theorem champion_name_from_path_is_champion (root : path) (champion subdir file : string) :
  _champion_name_from_path root (root ++ [champion; subdir; file]) = champion /\
  forall other : path,
    relative_to other (root ++ [champion; subdir; file]) = None ->
    _champion_name_from_path other (root ++ [champion; subdir; file]) = champion.
Proof.
  split.
  - unfold _champion_name_from_path. by rewrite relative_to_app.
  - intros other H. unfold _champion_name_from_path. rewrite H.
    change (root ++ [champion; subdir; file])
      with (root ++ [champion] ++ [subdir] ++ [file]).
    rewrite !app_assoc. rewrite !parent_app_last. unfold name. apply last_last.
Qed.

Lemma champion_name_from_path_is_champion_witness :
  relative_to ["Elsewhere"] (Demo.root ++ ["Ahri"; "Recommended"; "support.json"]) = None /\
  _champion_name_from_path ["Elsewhere"] (Demo.root ++ ["Ahri"; "Recommended"; "support.json"])
    = "Ahri".
Proof.
  assert (relative_to ["Elsewhere"] (Demo.root ++ ["Ahri"; "Recommended"; "support.json"]) = None)
    as H by reflexivity.
  split; [exact H|].
  exact (proj2 (champion_name_from_path_is_champion Demo.root "Ahri" "Recommended"
                  "support.json") ["Elsewhere"] H).
Defined.

(* ===================================================================== *)
(** * process_file: errors, files without hits, files with hits *)
(* ===================================================================== *)

Lemma run_fix_body_warns py root apply_changes backup map_code id_map p l w e w' :
  handled e = true ->
  process_file py p root id_map apply_changes backup map_code w
    = (inl (false, 0, error_text e), w') ->
  run_fix_body py root apply_changes backup map_code id_map p l w
    = (inl (warned ("WARN: " +:+ path_str py p +:+ ": " +:+ error_text e) l), w').
Proof.
  intros Hh H. unfold run_fix_body. unfold mbind at 1. unfold M_bind at 1. rewrite H.
  destruct (String.eqb_spec (error_text e) "") as [He|_]; [|done].
  by apply error_text_nonempty in He.
Qed.

(** X4.  A file that can be read but is not JSON: [process_file] returns
    is_candidate = false, count = 0 and the error [Invalid JSON:] followed
    by the decoder's message, whatever the flags; the store and the ledger
    are untouched, and the loop of [run_fix] counts the file as scanned and
    adds exactly one warning, made of the path and that error. *)
Theorem process_file_invalid_json (py : runtime) (json_path root : path)
    (id_map : gmap string string) (apply_changes backup : bool) (map_code : string)
    (w : world) (text detail : string) (l : locals) :
  read_err (disk w) !! json_path = None ->
  files (disk w) !! json_path = Some text ->
  json_loads py text = Malformed detail ->
  process_file py json_path root id_map apply_changes backup map_code w =
    (inl (false, 0, "Invalid JSON: " +:+ detail), emit (EvRead json_path) w) /\
  disk (emit (EvRead json_path) w) = disk w /\
  changes (emit (EvRead json_path) w) = changes w /\
  run_fix_body py root apply_changes backup map_code id_map json_path l w =
    (inl (warned ("WARN: " +:+ path_str py json_path +:+ ": Invalid JSON: " +:+ detail) l),
     emit (EvRead json_path) w).
Proof.
  intros Hr Hf Hl.
  assert (_json_load py json_path w = (inr (JSONDecodeError detail), emit (EvRead json_path) w))
    as Hload by (run_io; by rewrite Hr, Hf, Hl).
  pose proof (process_file_load_error py json_path root id_map apply_changes backup map_code
                _ _ _ Hload eq_refl) as H.
  split; [exact H|]. split; [done|]. split; [done|].
  exact (run_fix_body_warns _ _ _ _ _ _ _ l _ (JSONDecodeError detail) _ eq_refl H).
Qed.

Lemma process_file_invalid_json_witness :
  read_err (disk (Demo.store [(Demo.ahri, "{not json")] [])) !! Demo.ahri = None /\
  files (disk (Demo.store [(Demo.ahri, "{not json")] [])) !! Demo.ahri = Some "{not json" /\
  json_loads Demo.py "{not json" = Malformed "Expecting value: line 1 column 1 (char 0)" /\
  process_file Demo.py Demo.ahri Demo.root build_maps.1 true true "SR"
      (Demo.store [(Demo.ahri, "{not json")] []) =
    (inl (false, 0, "Invalid JSON: " +:+ "Expecting value: line 1 column 1 (char 0)"),
     emit (EvRead Demo.ahri) (Demo.store [(Demo.ahri, "{not json")] [])) /\
  disk (emit (EvRead Demo.ahri) (Demo.store [(Demo.ahri, "{not json")] []))
    = disk (Demo.store [(Demo.ahri, "{not json")] []) /\
  changes (emit (EvRead Demo.ahri) (Demo.store [(Demo.ahri, "{not json")] []))
    = changes (Demo.store [(Demo.ahri, "{not json")] []) /\
  run_fix_body Demo.py Demo.root true true "SR" build_maps.1 Demo.ahri initial_locals
      (Demo.store [(Demo.ahri, "{not json")] []) =
    (inl (warned ("WARN: " +:+ path_str Demo.py Demo.ahri +:+ ": Invalid JSON: " +:+
                  "Expecting value: line 1 column 1 (char 0)") initial_locals),
     emit (EvRead Demo.ahri) (Demo.store [(Demo.ahri, "{not json")] [])).
Proof.
  assert (read_err (disk (Demo.store [(Demo.ahri, "{not json")] [])) !! Demo.ahri = None)
    as Hr by reflexivity.
  assert (files (disk (Demo.store [(Demo.ahri, "{not json")] [])) !! Demo.ahri
          = Some "{not json") as Hf by reflexivity.
  assert (json_loads Demo.py "{not json" = Malformed "Expecting value: line 1 column 1 (char 0)")
    as Hl by (vm_compute; reflexivity).
  split; [exact Hr|]. split; [exact Hf|]. split; [exact Hl|].
  exact (process_file_invalid_json Demo.py Demo.ahri Demo.root build_maps.1 true true "SR"
           _ _ _ initial_locals Hr Hf Hl).
Defined.

(** X5.  A file that cannot be opened for reading, or is not there -- the
    message is then that of the [FileNotFoundError], which ends with the
    [repr] of the path --: [process_file] returns is_candidate = false,
    count = 0 and the error [I/O error:] followed by the message of the
    [OSError], and leaves the world exactly as it was; the loop of [run_fix]
    counts the file as scanned and adds one warning. *)
Theorem process_file_read_error (py : runtime) (json_path root : path)
    (id_map : gmap string string) (apply_changes backup : bool) (map_code : string)
    (w : world) (msg : string) (l : locals) :
  read_err (disk w) !! json_path = Some msg \/
  (read_err (disk w) !! json_path = None /\ files (disk w) !! json_path = None /\
   msg = "[Errno 2] No such file or directory: " +:+ repr_str py (path_str py json_path)) ->
  process_file py json_path root id_map apply_changes backup map_code w =
    (inl (false, 0, "I/O error: " +:+ msg), w) /\
  run_fix_body py root apply_changes backup map_code id_map json_path l w =
    (inl (warned ("WARN: " +:+ path_str py json_path +:+ ": I/O error: " +:+ msg) l), w).
Proof.
  intros Hcase.
  assert (_json_load py json_path w = (inr (OSError msg), w)) as Hload.
  { run_io. destruct Hcase as [Hr|(Hr & Hf & ->)]; by rewrite Hr, ?Hf. }
  pose proof (process_file_load_error py json_path root id_map apply_changes backup map_code
                _ _ _ Hload eq_refl) as H.
  split; [exact H|].
  exact (run_fix_body_warns _ _ _ _ _ _ _ l _ (OSError msg) _ eq_refl H).
Qed.

Lemma process_file_read_error_witness :
  (read_err (disk Demo.w_sr) !! Demo.zed
     = Some "[Errno 2] No such file or directory: 'Champions/Zed/Recommended/aram.json'" \/
   (read_err (disk Demo.w_sr) !! Demo.zed = None /\ files (disk Demo.w_sr) !! Demo.zed = None /\
    "[Errno 2] No such file or directory: 'Champions/Zed/Recommended/aram.json'" =
    "[Errno 2] No such file or directory: " +:+ repr_str Demo.py (path_str Demo.py Demo.zed))) /\
  process_file Demo.py Demo.zed Demo.root build_maps.1 true true "SR" Demo.w_sr =
    (inl (false, 0,
          "I/O error: " +:+
          "[Errno 2] No such file or directory: 'Champions/Zed/Recommended/aram.json'"),
     Demo.w_sr) /\
  run_fix_body Demo.py Demo.root true true "SR" build_maps.1 Demo.zed initial_locals Demo.w_sr =
    (inl (warned ("WARN: " +:+ path_str Demo.py Demo.zed +:+ ": I/O error: " +:+
                  "[Errno 2] No such file or directory: 'Champions/Zed/Recommended/aram.json'")
            initial_locals), Demo.w_sr).
Proof.
  assert (read_err (disk Demo.w_sr) !! Demo.zed
            = Some "[Errno 2] No such file or directory: 'Champions/Zed/Recommended/aram.json'" \/
          (read_err (disk Demo.w_sr) !! Demo.zed = None /\
           files (disk Demo.w_sr) !! Demo.zed = None /\
           "[Errno 2] No such file or directory: 'Champions/Zed/Recommended/aram.json'" =
           "[Errno 2] No such file or directory: " +:+
           repr_str Demo.py (path_str Demo.py Demo.zed)))
    as H by (right; split; [reflexivity|split; [vm_compute; reflexivity|reflexivity]]).
  split; [exact H|].
  exact (process_file_read_error Demo.py Demo.zed Demo.root build_maps.1 true true "SR"
           Demo.w_sr _ initial_locals H).
Defined.

Lemma walked_no_hits py id_map root p d w :
  hits py id_map (JObj d) = [] -> walked py id_map root p d w = emit (EvRead p) w.
Proof. unfold walked. intros ->. by destruct w. Qed.

Lemma process_file_no_hits_eq py p root id_map apply_changes backup map_code w d :
  file_parses_to py w p (JObj d) ->
  py_ne_str (get d "map") map_code = false ->
  hits py id_map (JObj d) = [] ->
  process_file py p root id_map apply_changes backup map_code w =
    (inl (true, 0, ""), emit (EvRead p) w).
Proof.
  intros Hload Hmap Hhits.
  rewrite (process_file_candidate _ _ _ _ _ _ _ _ _ Hload Hmap). cbv zeta.
  rewrite Hhits. simpl. by rewrite walked_no_hits.
Qed.

(** X6.  A candidate file in which no id is a hit: [process_file] returns
    (true, 0, empty error) having only read the file -- also when asked to
    apply changes and to make backups, nothing is written and no backup is
    made -- and the loop of [run_fix] counts it as scanned and as candidate,
    not as modified. *)
Theorem process_file_no_hits (py : runtime) (json_path root : path)
    (id_map : gmap string string) (apply_changes backup : bool) (map_code : string)
    (w : world) (d : list (string * json)) (l : locals) :
  file_parses_to py w json_path (JObj d) ->
  py_ne_str (get d "map") map_code = false ->
  hits py id_map (JObj d) = [] ->
  process_file py json_path root id_map apply_changes backup map_code w =
    (inl (true, 0, ""), emit (EvRead json_path) w) /\
  disk (emit (EvRead json_path) w) = disk w /\
  changes (emit (EvRead json_path) w) = changes w /\
  run_fix_body py root apply_changes backup map_code id_map json_path l w =
    (inl (counted root json_path 0 l), emit (EvRead json_path) w) /\
  RunStats.files_modified (l_stats (counted root json_path 0 l)) =
    RunStats.files_modified (l_stats l) /\
  l_modified_files (counted root json_path 0 l) = l_modified_files l.
Proof.
  intros Hload Hmap Hhits.
  pose proof (process_file_no_hits_eq py json_path root id_map apply_changes backup map_code
                w d Hload Hmap Hhits) as H.
  split; [exact H|]. split; [done|]. split; [done|].
  split; [by apply run_fix_body_candidate|]. split; [simpl; lia|done].
Qed.

Lemma process_file_no_hits_witness :
  file_parses_to Demo.py
    (Demo.store [(Demo.ahri, Demo.render false (Demo.itemset "SR" [JStr "9999"]))] [])
    Demo.ahri
    (JObj [("title", JStr "Support"); ("map", JStr "SR");
           ("blocks", JArr [JObj [("type", JStr "Core");
                                  ("items", JArr [Demo.item (JStr "9999")])]])]) /\
  process_file Demo.py Demo.ahri Demo.root build_maps.1 true true "SR"
      (Demo.store [(Demo.ahri, Demo.render false (Demo.itemset "SR" [JStr "9999"]))] []) =
    (inl (true, 0, ""),
     emit (EvRead Demo.ahri)
       (Demo.store [(Demo.ahri, Demo.render false (Demo.itemset "SR" [JStr "9999"]))] [])).
Proof.
  assert (file_parses_to Demo.py
            (Demo.store [(Demo.ahri, Demo.render false (Demo.itemset "SR" [JStr "9999"]))] [])
            Demo.ahri
            (JObj [("title", JStr "Support"); ("map", JStr "SR");
                   ("blocks", JArr [JObj [("type", JStr "Core");
                                          ("items", JArr [Demo.item (JStr "9999")])]])]))
    as Hload.
  { split; [reflexivity|]. eexists. split; [reflexivity|]. vm_compute. reflexivity. }
  split; [exact Hload|].
  refine (proj1 (process_file_no_hits Demo.py Demo.ahri Demo.root build_maps.1 true true "SR"
                   _ _ initial_locals Hload _ _)).
  - reflexivity.
  - vm_compute. reflexivity.
Defined.

Lemma process_file_apply_hits py json_path root id_map backup map_code w d text :
  read_err (disk w) !! json_path = None ->
  files (disk w) !! json_path = Some text ->
  json_loads py text = Loaded (JObj d) ->
  py_ne_str (get d "map") map_code = false ->
  hits py id_map (JObj d) <> [] ->
  writable (disk w) json_path ->
  exists w',
    process_file py json_path root id_map true backup map_code w =
      (inl (true, Z.of_nat (length (hits py id_map (JObj d))), ""), w') /\
    files (disk w') !! json_path = Some (json_dumps py (rewrite_doc py id_map (JObj d))) /\
    files (disk w') !! backup_path_of json_path =
      match files (disk w) !! backup_path_of json_path with
      | Some kept => Some kept
      | None => if backup then Some text else None
      end /\
    (forall q, q <> json_path -> q <> backup_path_of json_path ->
               files (disk w') !! q = files (disk w) !! q) /\
    read_err (disk w') = read_err (disk w) /\
    changes w' =
      record_hits (_champion_name_from_path root json_path) (changes w)
        (hits py id_map (JObj d)).
Proof.
  intros Hr Hf Hl Hmap Hhits [Hw Hwb].
  assert (file_parses_to py w json_path (JObj d)) as Hload by (split; eauto).
  pose proof (backup_path_of_ne json_path) as Hne.
  rewrite (process_file_candidate _ _ _ _ _ _ _ _ _ Hload Hmap). cbv zeta.
  assert (negb (Z.of_nat (length (hits py id_map (JObj d))) =? 0) = true) as ->.
  { destruct (hits py id_map (JObj d)); [done|]. simpl length.
    apply negb_true_iff, Z.eqb_neq. lia. }
  cbn [andb]. unfold write_back. generalize (rewrite_doc py id_map (JObj d)) as doc.
  intros doc. run_io. unfold walked.
  destruct backup; simpl.
  - destruct (files (disk w) !! backup_path_of json_path) as [kept|] eqn:Hbak.
    + rewrite bool_decide_eq_true_2 by eauto. simpl. rewrite Hw.
      eexists. split; [reflexivity|]. simpl.
      rewrite lookup_insert_eq, lookup_insert_ne, Hbak by done.
      repeat split; try done. intros q Hq _. by rewrite lookup_insert_ne.
    + rewrite bool_decide_eq_false_2 by (intros [? ?]; done). simpl.
      rewrite Hr, Hf, Hwb. simpl. rewrite Hw.
      eexists. split; [reflexivity|]. simpl.
      rewrite lookup_insert_eq, lookup_insert_ne, lookup_insert_eq by done.
      repeat split; try done. intros q Hq1 Hq2. by rewrite !lookup_insert_ne.
  - rewrite Hw. eexists. split; [reflexivity|]. simpl.
    rewrite lookup_insert_eq, lookup_insert_ne by done.
    split; [done|]. split; [by destruct (files (disk w) !! backup_path_of json_path)|].
    repeat split; try done. intros q Hq _. by rewrite lookup_insert_ne.
Qed.



(** X8.  With the embedded map, once a candidate file has been processed
    with changes applied, processing it again finds nothing to do: if the
    decoder reads back the document that was written, the second call --
    whatever its flags -- returns (true, 0, empty error) and only reads the
    file. *)
Theorem process_file_second_call (py : runtime) (json_path root : path)
    (backup : bool) (map_code : string) (w : world) (d : list (string * json))
    (text : string) :
  read_err (disk w) !! json_path = None ->
  files (disk w) !! json_path = Some text ->
  json_loads py text = Loaded (JObj d) ->
  py_ne_str (get d "map") map_code = false ->
  writable (disk w) json_path ->
  json_loads py (json_dumps py (rewrite_doc py build_maps.1 (JObj d)))
    = Loaded (rewrite_doc py build_maps.1 (JObj d)) ->
  exists n w',
    process_file py json_path root build_maps.1 true backup map_code w
      = (inl (true, n, ""), w') /\
    forall apply_changes' backup' : bool,
      process_file py json_path root build_maps.1 apply_changes' backup' map_code w'
        = (inl (true, 0, ""), emit (EvRead json_path) w').
Proof.
  intros Hr Hf Hl Hmap Hw Hround.
  assert (file_parses_to py w json_path (JObj d)) as Hload by (split; eauto).
  destruct (hits py build_maps.1 (JObj d)) as [|h hs] eqn:Hhits.
  - exists 0, (emit (EvRead json_path) w).
    split; [by apply process_file_no_hits_eq with (d := d)|].
    intros a b. apply process_file_no_hits_eq with (d := d); [|done|done].
    destruct Hload as (? & t & ? & ?). split; [done|]. by exists t.
  - destruct (process_file_apply_hits py json_path root build_maps.1 backup map_code w d text
                Hr Hf Hl Hmap) as (w' & Hcall & Hp & _ & _ & Hr' & _); [by rewrite Hhits|done|].
    rewrite Hhits in Hcall. eexists _, w'. split; [exact Hcall|].
    destruct (same_except_rewrite_doc py build_maps.1 (JObj d))
      as [Heq|(d0 & d' & Hd0 & Hd' & _ & Hget)].
    + exfalso. apply rewrite_doc_fixed_no_hits in Heq. by rewrite Hhits in Heq.
    + simplify_eq. intros a b. apply process_file_no_hits_eq with (d := d').
      * split; [by rewrite Hr'|]. eexists. split; [exact Hp|]. by rewrite Hround, Hd'.
      * unfold get. rewrite Hget by done. exact Hmap.
      * rewrite <- Hd'. apply hits_rewrite_doc, embedded_range_fresh.
Qed.

Lemma process_file_second_call_witness :
  json_loads Demo2.py (json_dumps Demo2.py (rewrite_doc Demo2.py build_maps.1 Demo.doc_sr))
    = Loaded (rewrite_doc Demo2.py build_maps.1 Demo.doc_sr) /\
  exists n w',
    process_file Demo2.py Demo.ahri Demo.root build_maps.1 true true "SR" Demo.w_sr
      = (inl (true, n, ""), w') /\
    forall apply_changes' backup' : bool,
      process_file Demo2.py Demo.ahri Demo.root build_maps.1 apply_changes' backup' "SR" w'
        = (inl (true, 0, ""), emit (EvRead Demo.ahri) w').
Proof.
  assert (json_loads Demo2.py
            (json_dumps Demo2.py (rewrite_doc Demo2.py build_maps.1 Demo.doc_sr))
          = Loaded (rewrite_doc Demo2.py build_maps.1 Demo.doc_sr)) as Hround
    by (vm_compute; reflexivity).
  split; [exact Hround|].
  refine (process_file_second_call Demo2.py Demo.ahri Demo.root true "SR" Demo.w_sr
            [("title", JStr "Support"); ("map", JStr "SR");
             ("blocks", JArr [JObj [("type", JStr "Core");
                ("items", JArr [Demo.item (JStr "3003"); Demo.item (JStr "9999")])]])]
            (Demo.render false Demo.doc_sr) _ _ _ _ _ Hround).
  - reflexivity.
  - reflexivity.
  - vm_compute. reflexivity.
  - reflexivity.
  - split; reflexivity.
Defined.

(* ===================================================================== *)
(** * What a run may touch *)
(* ===================================================================== *)













(* ===================================================================== *)
(** * The loop of run_fix *)
(* ===================================================================== *)

(** An iteration that returns: [process_file] returned, and the locals are
    those of one of the three branches of the body. *)
Lemma run_fix_body_inv py root apply_changes backup map_code id_map p l w l' w' :
  run_fix_body py root apply_changes backup map_code id_map p l w = (inl l', w') ->
  exists c n e,
    process_file py p root id_map apply_changes backup map_code w = (inl (c, n, e), w') /\
    0 <= n /\
    l' = if negb (String.eqb e "") then warned ("WARN: " +:+ path_str py p +:+ ": " +:+ e) l
         else if negb c then scanned_only l else counted root p n l.
Proof.
  destruct (process_file_returns py p root id_map apply_changes backup map_code w)
    as [(c & n & e & w1 & H & Hn)|(e & text & _ & _ & _ & H)];
    unfold run_fix_body; unfold mbind at 1; unfold M_bind at 1; rewrite H; [|done].
  intros Heq. exists c, n, e. unfold mret, M_ret in Heq.
  destruct (negb (String.eqb e "")); [|destruct (negb c)]; by simplify_eq.
Qed.

(** An iteration that raises: [json.load] raised, on the content of the
    file, an exception that [process_file] does not handle. *)
Lemma run_fix_body_raises py root apply_changes backup map_code id_map p l w e w' :
  run_fix_body py root apply_changes backup map_code id_map p l w = (inr e, w') ->
  handled e = false /\ w' = emit (EvRead p) w /\
  exists text, files (disk w) !! p = Some text /\ json_loads py text = Raised e.
Proof.
  destruct (process_file_returns py p root id_map apply_changes backup map_code w)
    as [(c & n & e0 & w1 & H & Hn)|(e0 & text & Hf & Hl & He & H)];
    unfold run_fix_body; unfold mbind at 1; unfold M_bind at 1; rewrite H.
  - by destruct (negb (String.eqb e0 "")); [|destruct (negb c)].
  - intros Heq. simplify_eq. eauto.
Qed.


Lemma for_paths_cons_inv body p ps l w l' w' :
  for_paths body (p :: ps) l w = (inl l', w') ->
  exists l1 w1, body p l w = (inl l1, w1) /\ for_paths body ps l1 w1 = (inl l', w').
Proof.
  cbn [for_paths]. unfold mbind, M_bind.
  destruct (body p l w) as [[l1|e] w1]; [eauto|discriminate].
Qed.

Lemma for_paths_app body ps qs l w :
  for_paths body (ps ++ qs) l w =
  match for_paths body ps l w with
  | (inl l', w') => for_paths body qs l' w'
  | (inr e, w') => (inr e, w')
  end.
Proof.
  revert l w. induction ps as [|p ps IH]; intros l w; [done|].
  simpl. unfold mbind, M_bind. destruct (body p l w) as [[l'|e] w']; [apply IH|done].
Qed.

(** The loop ends by an exception only when an iteration does. *)
Lemma for_paths_raises py root apply_changes backup map_code id_map json_paths l w e w' :
  for_paths (run_fix_body py root apply_changes backup map_code id_map) json_paths l w
    = (inr e, w') ->
  handled e = false /\ exists text, json_loads py text = Raised e.
Proof.
  revert l w. induction json_paths as [|p ps IH]; intros l w; [done|].
  cbn [for_paths]. unfold mbind, M_bind.
  destruct (run_fix_body py root apply_changes backup map_code id_map p l w)
    as [[l1|e1] w1] eqn:H1; [apply IH|].
  intros Heq. simplify_eq.
  destruct (run_fix_body_raises _ _ _ _ _ _ _ _ _ _ _ H1) as (He & _ & text & _ & Hl). eauto.
Qed.

(** [run_fix] is its loop, from the initial locals and an empty ledger,
    followed by the construction of the result. *)
Lemma run_fix_unfold py json_paths root apply_changes backup map_code w :
  run_fix py json_paths root apply_changes backup map_code w =
  match for_paths (run_fix_body py root apply_changes backup map_code build_maps.1)
          json_paths initial_locals (set_changes [] w) with
  | (inl l, w1) =>
      (inl {| RunResult.stats := l_stats l;
              RunResult.changes := changes w1;
              RunResult.modified_files := l_modified_files l;
              RunResult.warnings := l_warnings l;
              RunResult.root := Some root;
              RunResult.map_code := map_code;
              RunResult.champions_detected :=
                sorted (casefold_le py) (elements (l_champions_seen l)) |},
       set_changes (changes w1) w1)
  | (inr e, w1) => (inr e, w1)
  end.
Proof.
  unfold run_fix. destruct build_maps as [id_map info_map]. cbn [fst].
  unfold on_changes. unfold mbind at 1. unfold M_bind at 1. cbv beta iota zeta.
  unfold mbind, M_bind, mret, M_ret.
  by destruct (for_paths _ _ _ _) as [[l|e] w1].
Qed.

(** [run_fix] raises only what [json.load] raised and [process_file] does
    not handle. *)
Lemma run_fix_raises py json_paths root apply_changes backup map_code w e w' :
  run_fix py json_paths root apply_changes backup map_code w = (inr e, w') ->
  handled e = false /\ exists text, json_loads py text = Raised e.
Proof.
  rewrite run_fix_unfold.
  destruct (for_paths _ _ _ _) as [[l|e1] w1] eqn:H; [done|].
  intros Heq. simplify_eq. by eapply for_paths_raises.
Qed.




(* ===================================================================== *)
(** * The counters of a run *)
(* ===================================================================== *)







(** A run over two located files of which the first is not UTF-8: the
    exception leaves [run_fix] and the second file is never read. *)
Example run_fix_not_utf8 :
  run_fix Demo.py [Demo.ahri; Demo.zed] Demo.root true true "SR" Demo.w_not_utf8 =
  (inr (UnicodeDecodeError
          "'utf-8' codec can't decode byte 0xff in position 0: invalid start byte"),
   emit (EvRead Demo.ahri) Demo.w_not_utf8).
Proof. vm_compute. reflexivity. Qed.

(* ===================================================================== *)
(** * The books of a run *)
(* ===================================================================== *)





(* ===================================================================== *)
(** * The ledger of a run *)
(* ===================================================================== *)

Lemma In_dict_set {V} (k : string) (v : V) d k' v' :
  In (k', v') (dict_set k v d) -> (k' = k /\ v' = v) \/ In (k', v') d.
Proof.
  induction d as [|[k0 v0] d IH]; simpl.
  - intros [H|[]]. left. by simplify_eq.
  - destruct (String.eqb_spec k k0) as [->|]; simpl.
    + intros [H|H]; [left; by simplify_eq|right; by right].
    + intros [H|H]; [right; by left|]. destruct (IH H) as [?|?]; [by left|right; by right].
Qed.

Lemma dict_get_Some_In {V} (k : string) (v : V) d : dict_get k d = Some v -> In (k, v) d.
Proof.
  induction d as [|[k0 v0] d IH]; simpl; [done|].
  destruct (String.eqb_spec k k0) as [->|]; intros H; [left; by simplify_eq|right; auto].
Qed.

Lemma record_change_from id_map changes champion old :
  ledger_from id_map changes -> is_Some (id_map !! old) ->
  ledger_from id_map (record_change changes champion old).
Proof.
  intros Hfrom Hold ch items old' n Hin Hin'. unfold record_change in Hin.
  apply In_dict_set in Hin as [[-> ->]|Hin]; [|by eapply Hfrom].
  apply In_dict_set in Hin' as [[-> ->]|Hin'].
  - split; [|done].
    destruct (dict_get champion changes) as [items|] eqn:Hc; simpl; [|lia].
    destruct (dict_get old items) as [n|] eqn:Ho; simpl; [|lia].
    apply dict_get_Some_In in Hc, Ho. destruct (Hfrom _ _ _ _ Hc Ho). lia.
  - destruct (dict_get champion changes) as [items|] eqn:Hc; simpl in Hin'; [|done].
    apply dict_get_Some_In in Hc. by eapply Hfrom.
Qed.

Lemma record_hits_from id_map champion hs changes :
  ledger_from id_map changes -> (forall h, In h hs -> is_Some (id_map !! h.1)) ->
  ledger_from id_map (record_hits champion changes hs).
Proof.
  unfold record_hits. revert changes.
  induction hs as [|h hs IH]; intros changes Hfrom Hhs; simpl; [done|].
  apply IH; [|intros; apply Hhs; by right].
  apply record_change_from; [done|apply Hhs; by left].
Qed.

Lemma hits_are_keys py id_map obj h :
  In h (hits py id_map obj) -> id_map !! h.1 = Some h.2.
Proof.
  unfold hits. intros H. apply list_elem_of_In, list_elem_of_omap in H as (item & _ & Hhit).
  destruct h as [old new]. apply hit_of_spec in Hhit.
  by destruct Hhit as (d & raw & _ & _ & _ & _ & Hnew & _).
Qed.

Lemma items_total_set k v (items : list (string * Z)) :
  items_total (dict_set k v items) = items_total items - default 0 (dict_get k items) + v.
Proof.
  unfold items_total. induction items as [|[k0 v0] items IH]; simpl; [lia|].
  destruct (String.eqb_spec k k0) as [->|]; simpl; [lia|]. rewrite IH. lia.
Qed.

Lemma ledger_total_set champion items (changes : ledger) :
  ledger_total (dict_set champion items changes) =
  ledger_total changes - items_total (default [] (dict_get champion changes))
  + items_total items.
Proof.
  unfold ledger_total. induction changes as [|[c0 i0] changes IH]; simpl.
  - change (items_total []) with 0. lia.
  - destruct (String.eqb_spec champion c0) as [->|]; simpl; [lia|]. rewrite IH. lia.
Qed.

Lemma ledger_total_record_change changes champion old :
  ledger_total (record_change changes champion old) = ledger_total changes + 1.
Proof. unfold record_change. rewrite ledger_total_set, items_total_set. lia. Qed.

Lemma ledger_total_record_hits champion hs changes :
  ledger_total (record_hits champion changes hs) =
  ledger_total changes + Z.of_nat (length hs).
Proof.
  unfold record_hits. revert changes.
  induction hs as [|h hs IH]; intros changes; simpl; [lia|].
  rewrite IH, ledger_total_record_change. lia.
Qed.

(** What a call does to the ledger, next to what it returns: it records the
    hits [hs] of the file, and returns their number, or zero. *)
Lemma process_file_ledger py p root id_map apply_changes backup map_code w c n e w' :
  process_file py p root id_map apply_changes backup map_code w = (inl (c, n, e), w') ->
  exists hs,
    changes w' = record_hits (_champion_name_from_path root p) (changes w) hs /\
    (forall h, In h hs -> id_map !! h.1 = Some h.2) /\
    0 <= n <= Z.of_nat (length hs) /\
    (apply_changes = false -> n = Z.of_nat (length hs)) /\
    (c = false \/ e <> "" -> n = 0).
Proof.
  destruct (process_file_outcome py p root id_map apply_changes backup map_code w)
    as [e0 w0 _ _ _ Hc _ H|e0 text _ _ _ _ H|v _ _ H|d _ _ H|d Hload Hmap].
  1-4: rewrite H; intros Heq; simplify_eq; exists []; simpl;
       rewrite ?Hc; repeat split; try done; lia.
  rewrite (process_file_candidate _ _ _ _ _ _ _ _ _ Hload Hmap). cbv zeta.
  assert (changes (walked py id_map root p d w) =
          record_hits (_champion_name_from_path root p) (changes w) (hits py id_map (JObj d)))
    as Hw1 by done.
  destruct (negb _) eqn:Hn; [destruct apply_changes|]; cbn [andb].
  - pose proof (write_back_changes py id_map p backup d (walked py id_map root p d w)) as Hc.
    rewrite Hw1 in Hc.
    destruct (write_back _ _ _ _ _ _) as [[u|e1] w2]; simpl in Hc;
      intros Heq; simplify_eq;
      exists (hits py id_map (JObj d));
      (split; [exact Hc|]); (split; [apply hits_are_keys|]);
      repeat split; try done; try lia; try (intros [?|?]; done).
  - intros Heq; simplify_eq. exists (hits py id_map (JObj d)).
    split; [done|]. split; [apply hits_are_keys|]. repeat split; try done; try lia;
      try (intros [?|?]; done).
  - intros Heq; simplify_eq. exists (hits py id_map (JObj d)).
    split; [done|]. split; [apply hits_are_keys|]. repeat split; try done; try lia;
      try (intros [?|?]; done).
Qed.

Lemma run_fix_body_ledger py root apply_changes backup map_code id_map p l w l' w' :
  run_fix_body py root apply_changes backup map_code id_map p l w = (inl l', w') ->
  (ledger_from id_map (changes w) -> ledger_from id_map (changes w')) /\
  RunStats.ids_replaced (l_stats l') - RunStats.ids_replaced (l_stats l)
    <= ledger_total (changes w') - ledger_total (changes w) /\
  (apply_changes = false ->
   RunStats.ids_replaced (l_stats l') - RunStats.ids_replaced (l_stats l)
     = ledger_total (changes w') - ledger_total (changes w)).
Proof.
  intros H0. destruct (run_fix_body_inv _ _ _ _ _ _ _ _ _ _ _ H0) as (c & n & e & H & _ & ->).
  destruct (process_file_ledger _ _ _ _ _ _ _ _ _ _ _ _ H)
    as (hs & Hc & Hkeys & Hn & Hdry & Hzero).
  assert (ledger_from id_map (changes w) -> ledger_from id_map (changes w')) as Hfrom.
  { intros Hf. rewrite Hc. apply record_hits_from; [done|].
    intros h Hh. by rewrite (Hkeys h Hh). }
  clear H0 H. destruct (String.eqb_spec e "") as [->|He]; simpl.
  - destruct c; simpl.
    + split; [exact Hfrom|].
      rewrite Hc, ledger_total_record_hits. split; [lia|].
      intros Hd. specialize (Hdry Hd). lia.
    + rewrite Hzero in * by (by left).
      split; [exact Hfrom|].
      rewrite Hc, ledger_total_record_hits. split; [lia|].
      intros Hd. specialize (Hdry Hd). lia.
  - rewrite Hzero in * by (by right).
    split; [exact Hfrom|].
    rewrite Hc, ledger_total_record_hits. split; [lia|].
    intros Hd. specialize (Hdry Hd). lia.
Qed.

Lemma for_paths_ledger py root apply_changes backup map_code id_map json_paths l w l' w' :
  for_paths (run_fix_body py root apply_changes backup map_code id_map) json_paths l w
    = (inl l', w') ->
  (ledger_from id_map (changes w) -> ledger_from id_map (changes w')) /\
  RunStats.ids_replaced (l_stats l') - RunStats.ids_replaced (l_stats l)
    <= ledger_total (changes w') - ledger_total (changes w) /\
  (apply_changes = false ->
   RunStats.ids_replaced (l_stats l') - RunStats.ids_replaced (l_stats l)
     = ledger_total (changes w') - ledger_total (changes w)).
Proof.
  revert l w. induction json_paths as [|p ps IH]; intros l w H.
  - simpl in H. unfold mret, M_ret in H. simplify_eq.
    split; [done|]. split; [lia|]. intros; lia.
  - apply for_paths_cons_inv in H as (l1 & w1 & H1 & H2).
    destruct (run_fix_body_ledger _ _ _ _ _ _ _ _ _ _ _ H1) as (Hf1 & Hle1 & Heq1).
    destruct (IH l1 w1 H2) as (Hf2 & Hle2 & Heq2).
    split; [tauto|]. split; [lia|].
    intros Hd. specialize (Heq1 Hd). specialize (Heq2 Hd). lia.
Qed.

Lemma ledger_from_nil id_map : ledger_from id_map [].
Proof. by intros ? ? ? ? []. Qed.

(** X11.  The ledger a run returns only holds what the walk recorded: every
    identifier in it is a key of the embedded map and every count is at
    least one.  So [flatten_changes] never falls back on such a result:
    every row has a count of at least one and, as new identifier, its old
    identifier with [32] in front -- never the placeholder.  A run that
    returns no result was ended by an exception [process_file] does not
    handle. *)
Theorem run_fix_ledger_from_map (py : runtime) (json_paths : list path) (root : path)
    (apply_changes backup : bool) (map_code : string) (w : world) :
  match run_fix py json_paths root apply_changes backup map_code w with
  | (inl result, _) =>
      ledger_from build_maps.1 (RunResult.changes result) /\
      Forall (fun row =>
                1 <= ChangeSummary.count row /\
                ChangeSummary.new_id row = "32" +:+ ChangeSummary.old_id row /\
                ChangeSummary.new_id row <> "?")
             (flatten_changes py result)
  | (inr e, _) => handled e = false
  end.
Proof.
  destruct (run_fix py json_paths root apply_changes backup map_code w)
    as [[result|e] w'] eqn:H.
  2: by eapply run_fix_raises.
  rewrite run_fix_unfold in H.
  destruct (for_paths _ _ _ _) as [[l|e] w1] eqn:Hl; [|done].
  destruct (for_paths_ledger _ _ _ _ _ _ _ _ _ _ _ Hl) as (Hfrom & _).
  simplify_eq. cbn [RunResult.changes].
  specialize (Hfrom (ledger_from_nil _)). split; [exact Hfrom|].
  rewrite flatten_changes_unfold. cbn [RunResult.changes].
  apply Forall_forall. intros row Hrow.
  apply list_elem_of_In, in_flat_map in Hrow as (c & _ & Hrow).
  unfold rows_of in Hrow. apply in_map_iff in Hrow as ([old n] & <- & Hkv).
  apply list_elem_of_In in Hkv. rewrite sorted_perm in Hkv. apply list_elem_of_In in Hkv.
  destruct (dict_get c (changes w1)) as [items|] eqn:Hc; [|done].
  apply dict_get_Some_In in Hc.
  destruct (Hfrom _ _ _ _ Hc Hkv) as [Hn [new Hnew]].
  apply id_map_lookup in Hnew as (info & Hinfo & _).
  destruct (embedded_entry _ _ Hinfo) as (Hold & Hnew & _).
  unfold summary_row. rewrite Hinfo. cbn. rewrite Hnew, Hold.
  split; [done|]. split; [done|]. discriminate.
Qed.

(** X12.  The ledger and the counter of replaced ids: ids_replaced never
    exceeds the sum of the counts of the ledger the run returns, and in a
    dry run the two are equal.  (With changes applied, a file whose write
    fails is in the ledger and not in ids_replaced.)  A run that returns no
    result was ended by an exception [process_file] does not handle. *)
Theorem run_fix_ids_replaced_le_ledger (py : runtime) (json_paths : list path) (root : path)
    (apply_changes backup : bool) (map_code : string) (w : world) :
  match run_fix py json_paths root apply_changes backup map_code w with
  | (inl result, _) =>
      RunStats.ids_replaced (RunResult.stats result)
        <= ledger_total (RunResult.changes result) /\
      (apply_changes = false ->
       RunStats.ids_replaced (RunResult.stats result)
         = ledger_total (RunResult.changes result))
  | (inr e, _) => handled e = false
  end.
Proof.
  destruct (run_fix py json_paths root apply_changes backup map_code w)
    as [[result|e] w'] eqn:H.
  2: by eapply run_fix_raises.
  rewrite run_fix_unfold in H.
  destruct (for_paths _ _ _ _) as [[l|e] w1] eqn:Hl; [|done].
  destruct (for_paths_ledger _ _ _ _ _ _ _ _ _ _ _ Hl) as (_ & Hle & Heq).
  simplify_eq. simpl in *.
  change (ledger_total []) with 0 in *. split; [lia|]. intros Hd. specialize (Heq Hd). lia.
Qed.

(** The strict case: the one file cannot be written, the ledger counts its
    hit and ids_replaced does not. *)
Example run_fix_ids_replaced_lt_ledger :
  match (run_fix Demo.py [Demo.ahri] Demo.root true true "SR" Demo.w_readonly).1 with
  | inl result =>
      RunStats.ids_replaced (RunResult.stats result) = 0 /\
      ledger_total (RunResult.changes result) = 1
  | inr _ => False
  end.
Proof. vm_compute. done. Qed.

(* ===================================================================== *)
(** * The champions a run detects *)
(* ===================================================================== *)

Lemma file_parses_to_same_disk py w w' p v :
  disk w' = disk w -> file_parses_to py w' p v <-> file_parses_to py w p v.
Proof. intros H. unfold file_parses_to. by rewrite H. Qed.

Lemma file_parses_to_unique py w p v v' :
  file_parses_to py w p v -> file_parses_to py w p v' -> v = v'.
Proof. intros (_ & t & Ht & Hl) (_ & t' & Ht' & Hl'). congruence. Qed.

Lemma candidate_file_same_disk py map_code w w' p :
  disk w' = disk w -> candidate_file py map_code w' p <-> candidate_file py map_code w p.
Proof.
  intros H. unfold candidate_file.
  split; intros (d & Hd & Hm); exists d; (split; [|done]);
    by apply (file_parses_to_same_disk py w w').
Qed.

(** One iteration adds at most the champion of its path, and in a dry run
    adds it exactly when the file is a candidate. *)
Lemma run_fix_body_seen py root apply_changes backup map_code id_map p l w l' w' :
  run_fix_body py root apply_changes backup map_code id_map p l w = (inl l', w') ->
  (l_champions_seen l' = l_champions_seen l \/
   l_champions_seen l' = {[ _champion_name_from_path root p ]} ∪ l_champions_seen l) /\
  (apply_changes = false ->
   disk w' = disk w /\
   ((candidate_file py map_code w p /\
     l_champions_seen l' = {[ _champion_name_from_path root p ]} ∪ l_champions_seen l) \/
    (~ candidate_file py map_code w p /\ l_champions_seen l' = l_champions_seen l))).
Proof.
  unfold run_fix_body. unfold mbind at 1. unfold M_bind at 1. unfold mret, M_ret.
  destruct (process_file_outcome py p root id_map apply_changes backup map_code w)
    as [e w0 He Hh Hd _ _ H|e text _ _ _ _ H|v Hv Hnot H|d Hd Hmap H|d Hload Hmap].
  - rewrite H. destruct (String.eqb_spec (error_text e) "") as [E|_];
      [by destruct (error_text_nonempty e Hh)|].
    intros Heq. cbn [negb] in Heq. simplify_eq. simpl. split; [by left|].
    intros _. split; [done|]. right. split; [|done].
    intros (d & Hd' & _). rewrite (_json_load_parses _ _ _ _ Hd') in He. done.
  - rewrite H. done.
  - rewrite H. intros Heq. cbn in Heq. simplify_eq. simpl. split; [by left|].
    intros _. split; [done|]. right. split; [|done].
    intros (d & Hd' & _). apply (Hnot d). by eapply file_parses_to_unique.
  - rewrite H. intros Heq. cbn in Heq. simplify_eq. simpl. split; [by left|].
    intros _. split; [done|]. right. split; [|done].
    intros (d' & Hd' & Hm'). assert (JObj d = JObj d') as Heq by (by eapply file_parses_to_unique).
    simplify_eq. congruence.
  - destruct (process_file py p root id_map apply_changes backup map_code w)
      as [[[[c n] e]|e] w1] eqn:H; [|done].
    destruct (negb (String.eqb e "")) eqn:He; [|destruct (negb c) eqn:Hc];
      intros Heq; simplify_eq; simpl; (split; [by (left + right)|]);
      intros ->; rewrite (process_file_candidate _ _ _ _ _ _ _ _ _ Hload Hmap) in H;
      cbv zeta in H; rewrite andb_false_r in H; simplify_eq; try done.
    simpl. split; [done|]. left. split; [by exists d|done].
Qed.

Lemma for_paths_seen py root apply_changes backup map_code id_map json_paths l w l' w' :
  for_paths (run_fix_body py root apply_changes backup map_code id_map) json_paths l w
    = (inl l', w') ->
  (forall c, c ∈ l_champions_seen l' ->
     c ∈ l_champions_seen l \/
     exists p, In p json_paths /\ c = _champion_name_from_path root p) /\
  (apply_changes = false ->
   forall c, c ∈ l_champions_seen l' <->
     c ∈ l_champions_seen l \/
     exists p, In p json_paths /\ candidate_file py map_code w p /\
               c = _champion_name_from_path root p).
Proof.
  revert l w. induction json_paths as [|p ps IH]; intros l w H.
  - simpl in H. unfold mret, M_ret in H. simplify_eq. split; [by left|].
    intros _ c. split; [by left|]. by intros [?|(? & [] & _)].
  - apply for_paths_cons_inv in H as (l1 & w1 & H1 & H2).
    destruct (run_fix_body_seen _ _ _ _ _ _ _ _ _ _ _ H1) as (Hs1 & Hd1).
    destruct (IH l1 w1 H2) as (Hs2 & Hd2).
    split.
    + intros c Hc. destruct (Hs2 c Hc) as [Hc1|(q & Hq & ->)].
      * destruct Hs1 as [Hs1|Hs1]; rewrite Hs1 in Hc1; [by left|].
        apply elem_of_union in Hc1 as [Hc1|Hc1]; [|by left].
        apply elem_of_singleton in Hc1. right. exists p. split; [by left|done].
      * right. exists q. split; [by right|done].
    + intros Hdry c. destruct (Hd1 Hdry) as [Hdisk Hcase]. rewrite (Hd2 Hdry c).
      assert (forall q, candidate_file py map_code w1 q <-> candidate_file py map_code w q)
        as Hcand by (intros q; by apply candidate_file_same_disk).
      split.
      * intros [Hc1|(q & Hq & Hcq & ->)].
        -- destruct Hcase as [[Hcp Hs]|[_ Hs]]; rewrite Hs in Hc1; [|by left].
           apply elem_of_union in Hc1 as [Hc1|Hc1]; [|by left].
           apply elem_of_singleton in Hc1. right. exists p. split; [by left|done].
        -- right. exists q. split; [by right|]. split; [by apply Hcand|done].
      * intros [Hc|(q & [<-|Hq] & Hcq & ->)].
        -- left. destruct Hcase as [[_ Hs]|[_ Hs]]; rewrite Hs; [|done].
           apply elem_of_union. by right.
        -- left. destruct Hcase as [[_ Hs]|[Hn _]]; [|done]. rewrite Hs.
           apply elem_of_union. left. by apply elem_of_singleton.
        -- right. exists q. split; [done|]. split; [by apply Hcand|done].
Qed.

(** X13.  In the result [run_fix] returns, [champions_detected] has no
    duplicates and is in order of the case-folded names; each of its entries
    is the grouping key of a located path; and in a dry run it holds exactly
    the grouping keys of the candidate files, those without any replacement
    included.  A run that returns no result was ended by an exception
    [process_file] does not handle. *)
Theorem run_fix_champions_detected (py : runtime) (json_paths : list path) (root : path)
    (apply_changes backup : bool) (map_code : string) (w : world) :
  match run_fix py json_paths root apply_changes backup map_code w with
  | (inl result, _) =>
      NoDup (RunResult.champions_detected result) /\
      StronglySorted (fun a b => casefold_le py a b = true)
        (RunResult.champions_detected result) /\
      (forall c, In c (RunResult.champions_detected result) ->
         exists p, In p json_paths /\ c = _champion_name_from_path root p) /\
      (apply_changes = false ->
       forall c, In c (RunResult.champions_detected result) <->
         exists p, In p json_paths /\ candidate_file py map_code w p /\
                   c = _champion_name_from_path root p)
  | (inr e, _) => handled e = false
  end.
Proof.
  destruct (run_fix py json_paths root apply_changes backup map_code w)
    as [[result|e] w'] eqn:H.
  2: by eapply run_fix_raises.
  rewrite run_fix_unfold in H.
  destruct (for_paths _ _ _ _) as [[l|e] w1] eqn:Hl; [|done].
  destruct (for_paths_seen _ _ _ _ _ _ _ _ _ _ _ Hl) as (Hs & Hd).
  simplify_eq. cbn [RunResult.champions_detected].
  assert (forall c, In c (sorted (casefold_le py) (elements (l_champions_seen l)))
                    <-> c ∈ l_champions_seen l) as Hin.
  { intros c. rewrite <- list_elem_of_In, sorted_perm. apply elem_of_elements. }
  split; [rewrite sorted_perm; apply NoDup_elements|].
  split; [apply sorted_sorted; [apply casefold_le_total|apply casefold_le_trans]|].
  split.
  - intros c Hc. apply Hin in Hc. destruct (Hs c Hc) as [Hc0|?]; [|done].
    by apply not_elem_of_empty in Hc0.
  - intros Hdry c. rewrite Hin, (Hd Hdry c). split.
    + intros [Hc0|(p & Hp & Hc & ->)]; [by apply not_elem_of_empty in Hc0|].
      exists p. split; [done|]. split; [|done].
      by apply (candidate_file_same_disk py map_code w (set_changes [] w)).
    + intros (p & Hp & Hc & ->). right. exists p. split; [done|]. split; [|done].
      by apply (candidate_file_same_disk py map_code w (set_changes [] w)).
Qed.

(* ===================================================================== *)
(** * print_cli_report: one line per champion *)
(* ===================================================================== *)

Lemma print_groups_same rows c parts printed :
  Forall (fun row => ChangeSummary.champion row = c) rows ->
  print_groups rows (Some c) parts printed = (Some c, parts ++ map row_part rows, printed).
Proof.
  revert parts. induction rows as [|row rows IH]; intros parts Hall; simpl.
  - by rewrite app_nil_r.
  - apply Forall_cons in Hall as [-> Hall]. rewrite String.eqb_refl. simpl.
    rewrite IH by done. by rewrite <- app_assoc.
Qed.

Lemma print_groups_new rows c current parts printed :
  rows <> [] ->
  Forall (fun row => ChangeSummary.champion row = c) rows ->
  current <> Some c ->
  print_groups rows current parts printed =
  (Some c, map row_part rows, flush_group current parts printed).
Proof.
  destruct rows as [|row rows]; [done|]. intros _ Hall Hcur.
  apply Forall_cons in Hall as [Hc Hall]. simpl. rewrite Hc.
  assert (match current with
          | Some c0 => negb (String.eqb c0 c)
          | None => true
          end = true) as ->.
  { destruct current as [c0|]; [|done].
    destruct (String.eqb_spec c0 c) as [->|]; [done|done]. }
  by rewrite print_groups_same.
Qed.

Lemma print_groups_app rows1 rows2 current parts printed :
  print_groups (rows1 ++ rows2) current parts printed =
  (let '(current', parts', printed') := print_groups rows1 current parts printed in
   print_groups rows2 current' parts' printed').
Proof.
  revert current parts printed.
  induction rows1 as [|row rows1 IH]; intros current parts printed; [done|].
  simpl. by destruct (match current with Some c => _ | None => true end).
Qed.

(** The loop over the rows of the champions [cs], followed by the last
    [print]: one line per champion that has rows. *)
Lemma print_groups_champions (g : string -> list ChangeSummary.t) (cs : list string)
    current parts printed :
  (forall c, Forall (fun row => ChangeSummary.champion row = c) (g c)) ->
  NoDup cs ->
  (forall c, current = Some c -> ~ In c cs) ->
  (let '(current', parts', printed') := print_groups (flat_map g cs) current parts printed in
   flush_group current' parts' printed') =
  flush_group current parts printed ++
  map (fun c => group_line c (map row_part (g c)))
      (List.filter (fun c => match g c with [] => false | _ => true end) cs).
Proof.
  intros Hg. revert current parts printed.
  induction cs as [|c cs IH]; intros current parts printed Hnd Hcur.
  - simpl. by rewrite app_nil_r.
  - apply NoDup_cons in Hnd as [Hc Hnd]. cbn [flat_map List.filter].
    rewrite print_groups_app.
    destruct (g c) as [|row rows] eqn:Hgc.
    + simpl. apply IH; [done|]. intros c0 H0 Hin. apply (Hcur c0 H0). by right.
    + rewrite (print_groups_new (row :: rows) c current parts printed).
      * rewrite IH; [|done|].
        -- simpl. rewrite Hgc. by rewrite <- app_assoc.
        -- intros c0 H0. simplify_eq. intros Hin. by apply Hc, list_elem_of_In.
      * done.
      * rewrite <- Hgc. apply Hg.
      * intros H0. apply (Hcur c H0). by left.
Qed.

Lemma rows_of_champion (py : runtime) changes c :
  Forall (fun row => ChangeSummary.champion row = c) (rows_of changes c).
Proof. apply (rows_of_sorted py). Qed.

Lemma rows_of_nil changes c :
  match rows_of changes c with [] => false | _ => true end = has_entries changes c.
Proof.
  unfold rows_of, has_entries.
  pose proof (sorted_perm count_then_id_le (default [] (dict_get c changes))) as Hp.
  destruct (default [] (dict_get c changes)) as [|kv items].
  - done.
  - destruct (sorted count_then_id_le (kv :: items)) eqn:E; [|done].
    by apply Permutation_nil_cons in Hp.
Qed.

(** X14.  For a ledger that holds each champion once, [print_cli_report]
    prints, after its head, either the text that nothing matched -- when the
    ledger has no entry -- or the heading of the changes followed by exactly
    one line per champion that has entries, in the case-insensitive order of
    the champions, each line listing that champion's rows in the order of
    [flatten_changes]; the summary comes last.  No champion is spread over
    two lines and no line mixes two champions. *)
Theorem print_cli_report_one_line_per_champion (py : runtime) (result : RunResult.t)
    (apply_changes : bool) :
  dict_wf (RunResult.changes result) ->
  print_cli_report py result apply_changes =
  report_head py result apply_changes ++
  match List.filter (has_entries (RunResult.changes result))
          (sorted (casefold_le py) (dict_keys (RunResult.changes result))) with
  | [] => [nl +:+ "No replacements matched the embedded mapping."]
  | champions =>
      (nl +:+ "Changes by champion (SR 5v5):") ::
      map (fun c => group_line c (map row_part (rows_of (RunResult.changes result) c)))
          champions
  end ++
  [report_summary result].
Proof.
  intros Hwf. unfold print_cli_report. rewrite flatten_changes_unfold.
  set (cs := sorted (casefold_le py) (dict_keys (RunResult.changes result))).
  set (g := rows_of (RunResult.changes result)).
  assert (NoDup cs) as Hnd by (unfold cs; by rewrite sorted_perm).
  assert (List.filter (has_entries (RunResult.changes result)) cs =
          List.filter (fun c => match g c with [] => false | _ => true end) cs) as Hfilter.
  { apply List.filter_ext. intros c. symmetry. apply rows_of_nil. }
  pose proof (print_groups_champions g cs None []
                (report_head py result apply_changes ++ [nl +:+ "Changes by champion (SR 5v5):"])
                (rows_of_champion py _) Hnd) as Hgroups.
  assert (flat_map g cs = [] <->
          List.filter (fun c => match g c with [] => false | _ => true end) cs = []) as Hnil.
  { clear. induction cs as [|c cs IH]; [done|]. cbn [flat_map List.filter].
    destruct (g c); simpl; [exact IH|]. split; intros H; discriminate. }
  rewrite <- Hfilter in Hgroups, Hnil.
  destruct (flat_map g cs) as [|row rows] eqn:Hrows.
  - rewrite (proj1 Hnil eq_refl). by rewrite <- app_assoc.
  - rewrite Hgroups by done.
    destruct (List.filter _ cs) as [|c0 cs0] eqn:Hf.
    { by pose proof (proj2 Hnil eq_refl). }
    simpl. by rewrite <- !app_assoc.
Qed.

Lemma print_cli_report_one_line_per_champion_witness :
  dict_wf (RunResult.changes (Demo.report Demo.ledger_three)) /\
  print_cli_report Demo.py (Demo.report Demo.ledger_three) false =
  [nl +:+ "Changes by champion (SR 5v5):";
   group_line "ahri" (map row_part (rows_of Demo.ledger_three "ahri"));
   group_line "Braum" (map row_part (rows_of Demo.ledger_three "Braum"));
   group_line "Zed" (map row_part (rows_of Demo.ledger_three "Zed"));
   report_summary (Demo.report Demo.ledger_three)].
Proof.
  assert (dict_wf (RunResult.changes (Demo.report Demo.ledger_three))) as Hwf.
  { apply (bool_decide_unpack _). vm_compute. reflexivity. }
  split; [exact Hwf|].
  rewrite (print_cli_report_one_line_per_champion Demo.py (Demo.report Demo.ledger_three)
             false Hwf).
  vm_compute. reflexivity.
Defined.

(* ===================================================================== *)
(** * Backup paths; a file that refuses to be written *)
(* ===================================================================== *)

Lemma string_app_inv_tail (s1 s2 t : string) : s1 +:+ t = s2 +:+ t -> s1 = s2.
Proof.
  revert s2. induction s1 as [|c s1 IH]; intros [|c2 s2] H.
  - done.
  - apply (f_equal String.length) in H.
    change (String.length t = S (String.length (s2 +:+ t))) in H.
    rewrite string_length_append in H. lia.
  - apply (f_equal String.length) in H.
    change (S (String.length (s1 +:+ t)) = String.length t) in H.
    rewrite string_length_append in H. lia.
  - injection H as -> H. f_equal. by apply IH.
Qed.

Lemma path_split (p : path) : p <> [] -> p = parent p ++ [name p].
Proof. intros H. unfold parent, name. by apply app_removelast_last. Qed.

(** X15.  The backup path of a file is a sibling of the file, named like
    it with [.bak] at the end.  It is never the file itself and never a path
    the locator yields, so a backup is never scanned, rewritten or backed up
    in turn; and two different files never share a backup path. *)
Theorem backup_path_of_separate (root p q : path) :
  p <> [] ->
  q <> [] ->
  parent (backup_path_of p) = parent p /\
  name (backup_path_of p) = name p +:+ ".bak" /\
  backup_path_of p <> p /\
  ~ is_itemset_path root (backup_path_of p) /\
  (backup_path_of p = backup_path_of q -> p = q).
Proof.
  intros Hp Hq.
  split; [apply parent_app_last|]. split; [apply name_backup_path_of|].
  split; [apply backup_path_of_ne|]. split.
  - intros H. by apply (backup_path_not_itemset root p (backup_path_of p)).
  - intros H. unfold backup_path_of in H.
    apply app_inj_tail in H as [Hparent Hname].
    apply string_app_inv_tail in Hname.
    rewrite (path_split p Hp), (path_split q Hq). by rewrite Hparent, Hname.
Qed.

Lemma backup_path_of_separate_witness :
  Demo.ahri <> [] /\ Demo.zed <> [] /\
  parent (backup_path_of Demo.ahri) = parent Demo.ahri /\
  name (backup_path_of Demo.ahri) = name Demo.ahri +:+ ".bak" /\
  backup_path_of Demo.ahri <> Demo.ahri /\
  ~ is_itemset_path Demo.root (backup_path_of Demo.ahri) /\
  (backup_path_of Demo.ahri = backup_path_of Demo.zed -> Demo.ahri = Demo.zed).
Proof.
  assert (Demo.ahri <> []) as Hp by discriminate.
  assert (Demo.zed <> []) as Hq by discriminate.
  split; [exact Hp|]. split; [exact Hq|].
  exact (backup_path_of_separate Demo.root Demo.ahri Demo.zed Hp Hq).
Defined.

(** X16.  A candidate file with hits that refuses to be written, with
    changes applied: [process_file] returns is_candidate = false, count = 0
    and an [I/O error:] text, and the file keeps its text -- but the hits
    have been recorded in the ledger, and with backups on, when there was no
    backup and the backup path can be written, the backup has been made. *)
Theorem process_file_write_refused (py : runtime) (json_path root : path)
    (id_map : gmap string string) (backup : bool) (map_code : string)
    (w : world) (d : list (string * json)) (text msg : string) :
  read_err (disk w) !! json_path = None ->
  files (disk w) !! json_path = Some text ->
  json_loads py text = Loaded (JObj d) ->
  py_ne_str (get d "map") map_code = false ->
  hits py id_map (JObj d) <> [] ->
  write_err (disk w) !! json_path = Some msg ->
  exists w' detail,
    process_file py json_path root id_map true backup map_code w =
      (inl (false, 0, "I/O error: " +:+ detail), w') /\
    files (disk w') !! json_path = Some text /\
    changes w' =
      record_hits (_champion_name_from_path root json_path) (changes w)
        (hits py id_map (JObj d)) /\
    (backup = true ->
     files (disk w) !! backup_path_of json_path = None ->
     write_err (disk w) !! backup_path_of json_path = None ->
     detail = msg /\ files (disk w') !! backup_path_of json_path = Some text).
Proof.
  intros Hr Hf Hl Hmap Hhits Hw.
  assert (file_parses_to py w json_path (JObj d)) as Hload by (split; eauto).
  pose proof (backup_path_of_ne json_path) as Hne.
  rewrite (process_file_candidate _ _ _ _ _ _ _ _ _ Hload Hmap). cbv zeta.
  assert (negb (Z.of_nat (length (hits py id_map (JObj d))) =? 0) = true) as ->.
  { destruct (hits py id_map (JObj d)); [done|]. simpl length.
    apply negb_true_iff, Z.eqb_neq. lia. }
  cbn [andb]. unfold write_back. generalize (rewrite_doc py id_map (JObj d)) as doc.
  intros doc. run_io. unfold walked.
  destruct backup; simpl.
  - destruct (files (disk w) !! backup_path_of json_path) as [kept|] eqn:Hbak.
    + rewrite bool_decide_eq_true_2 by eauto. simpl. rewrite Hw.
      eexists _, _. split; [reflexivity|]. simpl. by repeat split.
    + rewrite bool_decide_eq_false_2 by (intros [? ?]; done). simpl.
      rewrite Hr, Hf.
      destruct (write_err (disk w) !! backup_path_of json_path) as [msg'|] eqn:Hwb; simpl.
      * eexists _, _. split; [reflexivity|]. simpl. by repeat split.
      * rewrite Hw. eexists _, _. split; [reflexivity|]. simpl.
        rewrite lookup_insert_ne by done. rewrite lookup_insert_eq. by repeat split.
  - rewrite Hw. eexists _, _. split; [reflexivity|]. simpl. by repeat split.
Qed.

Lemma process_file_write_refused_witness :
  read_err (disk Demo.w_readonly) !! Demo.ahri = None /\
  write_err (disk Demo.w_readonly) !! Demo.ahri
    = Some "[Errno 13] Permission denied: 'Champions/Ahri/Recommended/support.json'" /\
  exists w' detail,
    process_file Demo.py Demo.ahri Demo.root build_maps.1 true true "SR" Demo.w_readonly =
      (inl (false, 0, "I/O error: " +:+ detail), w') /\
    files (disk w') !! Demo.ahri = Some (Demo.render false Demo.doc_sr) /\
    changes w' =
      record_hits (_champion_name_from_path Demo.root Demo.ahri) (changes Demo.w_readonly)
        (hits Demo.py build_maps.1 Demo.doc_sr) /\
    (true = true ->
     files (disk Demo.w_readonly) !! backup_path_of Demo.ahri = None ->
     write_err (disk Demo.w_readonly) !! backup_path_of Demo.ahri = None ->
     detail = "[Errno 13] Permission denied: 'Champions/Ahri/Recommended/support.json'" /\
     files (disk w') !! backup_path_of Demo.ahri = Some (Demo.render false Demo.doc_sr)).
Proof.
  assert (read_err (disk Demo.w_readonly) !! Demo.ahri = None) as Hr by reflexivity.
  assert (write_err (disk Demo.w_readonly) !! Demo.ahri
            = Some "[Errno 13] Permission denied: 'Champions/Ahri/Recommended/support.json'")
    as Hw by (vm_compute; reflexivity).
  assert (files (disk Demo.w_readonly) !! Demo.ahri = Some (Demo.render false Demo.doc_sr))
    as Hf by reflexivity.
  assert (json_loads Demo.py (Demo.render false Demo.doc_sr) = Loaded Demo.doc_sr) as Hl
    by (vm_compute; reflexivity).
  assert (hits Demo.py build_maps.1 Demo.doc_sr <> []) as Hhits
    by (vm_compute; discriminate).
  split; [exact Hr|]. split; [exact Hw|].
  exact (process_file_write_refused Demo.py Demo.ahri Demo.root build_maps.1 true "SR"
           Demo.w_readonly
           [("title", JStr "Support"); ("map", JStr "SR");
            ("blocks", JArr [JObj [("type", JStr "Core");
               ("items", JArr [Demo.item (JStr "3003"); Demo.item (JStr "9999")])]])]
           (Demo.render false Demo.doc_sr) _ Hr Hf Hl eq_refl Hhits Hw).
Defined.

(* ===================================================================== *)
(** * Exceptions that process_file does not handle *)
(* ===================================================================== *)

(** X17.  A file that can be read and on which [json.load] raises an
    exception that is neither a [JSONDecodeError] nor an [OSError] -- the
    content is not UTF-8, say: the exception leaves [process_file], which
    returns no triple, and leaves the loop of [run_fix]; the store and the
    ledger are as before the call.  A run that got to this file stops
    there: whatever paths come after it, [run_fix] raises the exception and
    returns no result. *)
Theorem process_file_unhandled (py : runtime) (json_path root : path)
    (id_map : gmap string string) (apply_changes backup : bool) (map_code : string)
    (w : world) (text : string) (e : exn) (l : locals) :
  read_err (disk w) !! json_path = None ->
  files (disk w) !! json_path = Some text ->
  json_loads py text = Raised e ->
  handled e = false ->
  process_file py json_path root id_map apply_changes backup map_code w =
    (inr e, emit (EvRead json_path) w) /\
  disk (emit (EvRead json_path) w) = disk w /\
  changes (emit (EvRead json_path) w) = changes w /\
  run_fix_body py root apply_changes backup map_code id_map json_path l w =
    (inr e, emit (EvRead json_path) w) /\
  forall (pre post : list path) (l0 : locals) (w0 : world),
    for_paths (run_fix_body py root apply_changes backup map_code id_map) pre l0 w0
      = (inl l, w) ->
    for_paths (run_fix_body py root apply_changes backup map_code id_map)
      (pre ++ json_path :: post) l0 w0 = (inr e, emit (EvRead json_path) w).
Proof.
  intros Hr Hf Hl He.
  assert (_json_load py json_path w = (inr e, emit (EvRead json_path) w)) as Hload
    by (run_io; by rewrite Hr, Hf, Hl).
  pose proof (process_file_load_raises py json_path root id_map apply_changes backup map_code
                _ _ _ Hload He) as H.
  assert (run_fix_body py root apply_changes backup map_code id_map json_path l w =
          (inr e, emit (EvRead json_path) w)) as Hbody.
  { unfold run_fix_body. unfold mbind at 1. unfold M_bind at 1. by rewrite H. }
  split; [exact H|]. split; [done|]. split; [done|]. split; [exact Hbody|].
  intros pre post l0 w0 Hpre. rewrite for_paths_app, Hpre.
  cbn [for_paths]. unfold mbind, M_bind. by rewrite Hbody.
Qed.

Lemma process_file_unhandled_witness :
  read_err (disk Demo.w_not_utf8) !! Demo.ahri = None /\
  files (disk Demo.w_not_utf8) !! Demo.ahri = Some Demo.not_utf8 /\
  json_loads Demo.py Demo.not_utf8 =
    Raised (UnicodeDecodeError
              "'utf-8' codec can't decode byte 0xff in position 0: invalid start byte") /\
  process_file Demo.py Demo.ahri Demo.root build_maps.1 true true "SR" Demo.w_not_utf8 =
    (inr (UnicodeDecodeError
            "'utf-8' codec can't decode byte 0xff in position 0: invalid start byte"),
     emit (EvRead Demo.ahri) Demo.w_not_utf8) /\
  run_fix_body Demo.py Demo.root true true "SR" build_maps.1 Demo.ahri initial_locals
      Demo.w_not_utf8 =
    (inr (UnicodeDecodeError
            "'utf-8' codec can't decode byte 0xff in position 0: invalid start byte"),
     emit (EvRead Demo.ahri) Demo.w_not_utf8).
Proof.
  assert (read_err (disk Demo.w_not_utf8) !! Demo.ahri = None) as Hr by reflexivity.
  assert (files (disk Demo.w_not_utf8) !! Demo.ahri = Some Demo.not_utf8) as Hf
    by (vm_compute; reflexivity).
  assert (json_loads Demo.py Demo.not_utf8 =
          Raised (UnicodeDecodeError
                    "'utf-8' codec can't decode byte 0xff in position 0: invalid start byte"))
    as Hl by (vm_compute; reflexivity).
  split; [exact Hr|]. split; [exact Hf|]. split; [exact Hl|].
  destruct (process_file_unhandled Demo.py Demo.ahri Demo.root build_maps.1 true true "SR"
              Demo.w_not_utf8 _ _ initial_locals Hr Hf Hl eq_refl) as (H1 & _ & _ & H2 & _).
  split; [exact H1|exact H2].
Defined.
